(** * Payment retry engine: failure handling and retry resolution

    A shallow embedding of the failure handler [handle_failed_pull_funds],
    of the retry resolver [handle_retry] (with its helpers [getTimeBucket],
    [getRetryAction], [getNextFriday], [getLastFridayOfMonthForDate],
    [getLastFridayOfMonth], [getScheduledDate]) and of the failure branch of
    [pull_funds] that chains the two, followed by the properties the
    specification states about them.

    Modelling conventions.
    - A JavaScript [Date] is its time value: milliseconds since the epoch,
      an integer.  The range limit of time values (8.64e15 ms either side of
      the epoch) and the invalid date are not modelled.
    - Local time is taken to be UTC (no offset, no daylight saving), so the
      local-time accessors [getDay], [getDate], [getMonth], [getFullYear]
      and the setters [setDate], [setMonth] follow the ECMAScript
      definitions of Day, WeekDay, YearFromTime, MonthFromTime,
      DateFromTime, MakeDay and MakeDate directly.
    - [number] values that the code only uses as integers (failure codes,
      days overdue, retry counters, amounts) are integers. *)

From stdpp Require Import gmap strings list pretty.
From Stdlib Require Import ZArith Lia.

Local Open Scope Z_scope.

(** ** ECMAScript date arithmetic *)

Module JSDate.

Definition msPerDay : Z := 86400000.

Definition Day (t : Z) : Z := t / msPerDay.
Definition TimeWithinDay (t : Z) : Z := t mod msPerDay.

Definition DaysInYear (y : Z) : Z :=
  if negb (y mod 4 =? 0) then 365
  else if negb (y mod 100 =? 0) then 366
  else if negb (y mod 400 =? 0) then 365
  else 366.

Definition DayFromYear (y : Z) : Z :=
  365 * (y - 1970) + (y - 1969) / 4 - (y - 1901) / 100 + (y - 1601) / 400.

(** YearFromTime is specified as the largest [y] with
    [DayFromYear y <= Day t].  It is computed from the mean length of a
    Gregorian year (146097 days in 400 years) and corrected by one year
    either way; [YearFromDay_spec] below shows that this meets the
    specification. *)
Definition YearFromDay (d : Z) : Z :=
  let y0 := 1970 + (400 * d) / 146097 in
  if d <? DayFromYear y0 then y0 - 1
  else if DayFromYear (y0 + 1) <=? d then y0 + 1
  else y0.

Definition YearFromTime (t : Z) : Z := YearFromDay (Day t).

Definition InLeapYear (y : Z) : Z := if DaysInYear y =? 366 then 1 else 0.

Definition DayWithinYear (t : Z) : Z := Day t - DayFromYear (YearFromTime t).

(** Number of days of year [y] that precede month [m] (0 = January);
    [m = 12] gives the length of the year. *)
Definition MonthStart (y m : Z) : Z :=
  let l := InLeapYear y in
  if m <=? 0 then 0
  else if m =? 1 then 31
  else if m =? 2 then 59 + l
  else if m =? 3 then 90 + l
  else if m =? 4 then 120 + l
  else if m =? 5 then 151 + l
  else if m =? 6 then 181 + l
  else if m =? 7 then 212 + l
  else if m =? 8 then 243 + l
  else if m =? 9 then 273 + l
  else if m =? 10 then 304 + l
  else if m =? 11 then 334 + l
  else 365 + l.

Definition MonthFromTime (t : Z) : Z :=
  let y := YearFromTime t in
  let d := DayWithinYear t in
  if d <? MonthStart y 1 then 0
  else if d <? MonthStart y 2 then 1
  else if d <? MonthStart y 3 then 2
  else if d <? MonthStart y 4 then 3
  else if d <? MonthStart y 5 then 4
  else if d <? MonthStart y 6 then 5
  else if d <? MonthStart y 7 then 6
  else if d <? MonthStart y 8 then 7
  else if d <? MonthStart y 9 then 8
  else if d <? MonthStart y 10 then 9
  else if d <? MonthStart y 11 then 10
  else 11.

Definition DateFromTime (t : Z) : Z :=
  DayWithinYear t - MonthStart (YearFromTime t) (MonthFromTime t) + 1.

Definition WeekDay (t : Z) : Z := (Day t + 4) mod 7.

(** MakeDay: the day number of the first day of month [month] of year
    [year] (months outside 0..11 carry into the year), plus [date - 1]. *)
Definition MakeDay (year month date : Z) : Z :=
  let ym := year + month / 12 in
  let mn := month mod 12 in
  DayFromYear ym + MonthStart ym mn + date - 1.

Definition MakeDate (day time : Z) : Z := day * msPerDay + time.

(** [new Date(year, month, date)]: midnight of the given day; a year in
    0..99 stands for 1900 + year. *)
Definition Date_of_ymd (year month date : Z) : Z :=
  let yr := if (0 <=? year) && (year <=? 99) then 1900 + year else year in
  MakeDate (MakeDay yr month date) 0.

Definition getFullYear (t : Z) : Z := YearFromTime t.
Definition getMonth (t : Z) : Z := MonthFromTime t.
Definition getDate (t : Z) : Z := DateFromTime t.
Definition getDay (t : Z) : Z := WeekDay t.

Definition setDate (t dt : Z) : Z :=
  MakeDate (MakeDay (YearFromTime t) (MonthFromTime t) dt) (TimeWithinDay t).

Definition setMonth (t m : Z) : Z :=
  MakeDate (MakeDay (YearFromTime t) m (DateFromTime t)) (TimeWithinDay t).

End JSDate.

Import JSDate.

(** ** Reschedule dates (handle_retry.ts) *)

(** JavaScript [%] truncates towards zero: it is [Z.rem]. *)
Definition getNextFriday (from : Z) : Z :=
  let date := from in
  let dayOfWeek := getDay date in
  let daysUntilFriday :=
    let r := Z.rem (5 - dayOfWeek + 7) 7 in
    if r =? 0 then 7 else r in
  setDate date (getDate date + daysUntilFriday).

Definition getLastFridayOfMonthForDate (year month : Z) : Z :=
  let date := Date_of_ymd year (month + 1) 0 in
  let dayOfWeek := getDay date in
  let daysToSubtract := Z.rem (dayOfWeek + 2) 7 in
  setDate date (getDate date - daysToSubtract).

Definition getLastFridayOfMonth (from : Z) : Z :=
  let lastFridayThisMonth :=
    getLastFridayOfMonthForDate (getFullYear from) (getMonth from) in
  if lastFridayThisMonth <=? from then
    let nextMonth := setMonth from (getMonth from + 1) in
    getLastFridayOfMonthForDate (getFullYear nextMonth) (getMonth nextMonth)
  else lastFridayThisMonth.

Inductive ScheduleType := friday | friday_eom.

Definition getScheduledDate (type : ScheduleType) (balanceDueDate : option Z)
    (from : Z) : Z :=
  let fridayDate :=
    match type with
    | friday => getNextFriday from
    | friday_eom => getLastFridayOfMonth from
    end in
  match balanceDueDate with
  | None => fridayDate
  | Some balanceDueDate =>
      if balanceDueDate <=? from then fridayDate
      else if fridayDate <? balanceDueDate then fridayDate
      else balanceDueDate
  end.

(** ** Data model *)

(** The Prisma enumerations are declared outside the handlers; each keeps
    the members the handlers name and one constructor for the others. *)
Module PaymentStatus.
Inductive t := SCHEDULED | FAILED | other (name : string).
End PaymentStatus.

Module PaymentTrack.
Inductive t := ANY_CARD | BANK_CARD.
End PaymentTrack.

Module PaymentType.
Inductive t := SUBSCRIPTION | other (name : string).
End PaymentType.

Module PaymentDirectionType.
Inductive t := ACCOUNT_RECEIVABLE | other (name : string).
End PaymentDirectionType.

Module PaymentMethodStatus.
Inductive t := VALID | INVALID | other (name : string).
End PaymentMethodStatus.

Inductive RetryAction :=
  | instant
  | scheduled_friday
  | scheduled_friday_eom
  | backoff
  | not_possible.

Inductive TimeBucket := TB_0_30D | TB_31_60D | TB_61_180D | TB_181D_plus.

Definition RetryAction_to_string (a : RetryAction) : string :=
  match a with
  | instant => "instant"
  | scheduled_friday => "scheduled_friday"
  | scheduled_friday_eom => "scheduled_friday_eom"
  | backoff => "backoff"
  | not_possible => "not_possible"
  end.

Definition TimeBucket_to_string (b : TimeBucket) : string :=
  match b with
  | TB_0_30D => "0-30D"
  | TB_31_60D => "31-60D"
  | TB_61_180D => "61-180D"
  | TB_181D_plus => "181D+"
  end.

(** The [retry_trace_data] object written with a retry payment; the two
    ISO strings are kept as time values. *)
Record RetryTraceData := {
  original_payment_id : string;
  original_code : option Z;
  retry_reason : string;
  retry_timestamp : Z;
  scheduled_date : Z;
  time_bucket : TimeBucket;
  trace_days_overdue : Z;
}.

(** The columns of a payment row that the handlers read or write.  Not
    kept: transaction_id, processing_split_key, the async_processing and
    gateway columns, created_at, processed_at, updated_at and the loaded
    relations. *)
Module Payment.
Record t := mk {
  id : string;
  status : PaymentStatus.t;
  code : option Z;
  direction : option PaymentDirectionType.t;
  track : option PaymentTrack.t;
  type : PaymentType.t;
  date : Z;
  amount : Z;
  account_id : string;
  payment_method_id : option string;
  payment_method_processor_id : option string;
  subscription_id : option string;
  billing_cycle_id : option string;
  retry_routing_ctx : list string;
  retry_sequence_nb : Z;
  retry_prev_payment_id : option string;
  retry_annotation : option string;
  retry_trace_data : option RetryTraceData;
  retry_logic_version : option Z;
  memo : option string;
  fail_reason : option string;
}.
End Payment.

(** The object passed to [Payment.create]; each [connect: { id }] is the
    identifier it connects to. *)
Record PaymentCreateInput := {
  in_account : string;
  in_date : Z;
  in_amount : Z;
  in_type : PaymentType.t;
  in_direction : PaymentDirectionType.t;
  in_track : PaymentTrack.t;
  in_status : PaymentStatus.t;
  in_payment_method : option string;
  in_payment_method_processor : option string;
  in_subscription : option string;
  in_billing_cycle : option string;
  in_retry_prev_payment_id : string;
  in_retry_sequence_nb : Z;
  in_retry_routing_ctx : list string;
  in_retry_annotation : string;
  in_retry_logic_version : Z;
  in_retry_trace_data : RetryTraceData;
  in_memo : string;
}.

(** The fields of [UpdatePaymentInput] that the failure handler sets. *)
Record UpdatePaymentInput := {
  up_status : option PaymentStatus.t;
  up_code : option Z;
  up_fail_reason : option string;
}.

(** Modelled from the spec: model/BillingCycle, model/CustomerAccount and
    model/PaymentMethod are not in the source tree.  Each record keeps the
    fields the handlers read or write, and each store operation below
    follows the pattern of [Payment]'s: a [Result] that fails when the
    database call throws. *)
Module BillingCycle.
Record t := mk {
  id : string;
  end_date : Z;
  days_overdue : option Z;
}.
End BillingCycle.

Module CustomerAccount.
Record t := mk {
  id : string;
  balance_due_date : option Z;
  last_failed_payment_amount : option Z;
  last_failed_payment_date : option Z;
}.
End CustomerAccount.

Module PaymentMethod.
Record t := mk {
  id : string;
  status : PaymentMethodStatus.t;
  memo : option string;
}.
End PaymentMethod.

Inductive ApplicationError :=
  | ServerInternalError (message : string)
  | DatabaseError (detail : string).

Inductive Result (A : Type) :=
  | success (data : A)
  | fail (error : ApplicationError).
Arguments success {A} data.
Arguments fail {A} error.

Definition ok {A} (r : Result A) : bool :=
  match r with success _ => true | fail _ => false end.

(** Modelled from the spec: lib/Result is not in the source tree.
    [safe_unwrap] gives the data of a success and nothing for a failure,
    as its callers use it ([r.safe_unwrap() || payment]). *)
Definition safe_unwrap {A} (r : Result A) : option A :=
  match r with success d => Some d | fail _ => None end.

Inductive LogLevel := info | warn | error.

Record LogEntry := {
  logger_name : string;
  level : LogLevel;
  message : string;
}.

(** ** The world the handlers run in *)

(** The tables behind the model classes, the clock, the logger output and
    the outbox of the notification collaborator of the specification
    ([send_alert]).  [db_online] says whether database calls succeed;
    [fresh_id n] is the identifier the database gives to the row created
    when the payment table holds [n] rows. *)
Record World := {
  payments : list Payment.t;
  payment_methods : gmap string PaymentMethod.t;
  accounts : gmap string CustomerAccount.t;
  billing_cycles : gmap string BillingCycle.t;
  db_online : bool;
  fresh_id : nat -> string;
  now : Z;
  log : list LogEntry;
  alerts : list string;
}.

Definition with_payments (w : World) (ps : list Payment.t) : World :=
  {| payments := ps; payment_methods := payment_methods w;
     accounts := accounts w; billing_cycles := billing_cycles w;
     db_online := db_online w; fresh_id := fresh_id w; now := now w;
     log := log w; alerts := alerts w |}.

Definition with_payment_methods (w : World)
    (ms : gmap string PaymentMethod.t) : World :=
  {| payments := payments w; payment_methods := ms;
     accounts := accounts w; billing_cycles := billing_cycles w;
     db_online := db_online w; fresh_id := fresh_id w; now := now w;
     log := log w; alerts := alerts w |}.

Definition with_accounts (w : World)
    (acs : gmap string CustomerAccount.t) : World :=
  {| payments := payments w; payment_methods := payment_methods w;
     accounts := acs; billing_cycles := billing_cycles w;
     db_online := db_online w; fresh_id := fresh_id w; now := now w;
     log := log w; alerts := alerts w |}.

Definition with_billing_cycles (w : World)
    (bcs : gmap string BillingCycle.t) : World :=
  {| payments := payments w; payment_methods := payment_methods w;
     accounts := accounts w; billing_cycles := bcs;
     db_online := db_online w; fresh_id := fresh_id w; now := now w;
     log := log w; alerts := alerts w |}.

Definition with_log (w : World) (l : list LogEntry) : World :=
  {| payments := payments w; payment_methods := payment_methods w;
     accounts := accounts w; billing_cycles := billing_cycles w;
     db_online := db_online w; fresh_id := fresh_id w; now := now w;
     log := l; alerts := alerts w |}.

(** State passing: an asynchronous function of the source is a function
    from the world before the call to its value and the world after. *)
Definition M (A : Type) : Type := World -> A * World.

Definition ret {A} (a : A) : M A := fun w => (a, w).

Definition bind {A B} (c : M A) (k : A -> M B) : M B :=
  fun w => let (a, w') := c w in k a w'.

Notation "'let*' x ':=' c 'in' k" := (bind c (fun x => k))
  (at level 10, x name, c at level 100, k at level 200).
Notation "c ';;' k" := (bind c (fun _ => k))
  (at level 100, k at level 200, right associativity).

Definition new_Date : M Z := fun w => (now w, w).

Definition logger (name : string) (lv : LogLevel) (msg : string) : M unit :=
  fun w =>
    (tt, with_log w (log w ++ [{| logger_name := name; level := lv;
                                  message := msg |}])).

(** *** Store operations *)

Definition Payment_of_input (new_id : string) (i : PaymentCreateInput)
    : Payment.t :=
  {| Payment.id := new_id;
     Payment.status := in_status i;
     Payment.code := None;
     Payment.direction := Some (in_direction i);
     Payment.track := Some (in_track i);
     Payment.type := in_type i;
     Payment.date := in_date i;
     Payment.amount := in_amount i;
     Payment.account_id := in_account i;
     Payment.payment_method_id := in_payment_method i;
     Payment.payment_method_processor_id := in_payment_method_processor i;
     Payment.subscription_id := in_subscription i;
     Payment.billing_cycle_id := in_billing_cycle i;
     Payment.retry_routing_ctx := in_retry_routing_ctx i;
     Payment.retry_sequence_nb := in_retry_sequence_nb i;
     Payment.retry_prev_payment_id := Some (in_retry_prev_payment_id i);
     Payment.retry_annotation := Some (in_retry_annotation i);
     Payment.retry_trace_data := Some (in_retry_trace_data i);
     Payment.retry_logic_version := Some (in_retry_logic_version i);
     Payment.memo := Some (in_memo i);
     Payment.fail_reason := None |}.

Definition Payment_create (input : PaymentCreateInput)
    : M (Result Payment.t) :=
  fun w =>
    if db_online w then
      let payment :=
        Payment_of_input (fresh_id w (length (payments w))) input in
      (success payment, with_payments w (payments w ++ [payment]))
    else (fail (DatabaseError "Failed to create payment"), w).

Definition apply_update (input : UpdatePaymentInput) (p : Payment.t)
    : Payment.t :=
  {| Payment.id := Payment.id p;
     Payment.status := default (Payment.status p) (up_status input);
     Payment.code :=
       match up_code input with Some c => Some c | None => Payment.code p end;
     Payment.direction := Payment.direction p;
     Payment.track := Payment.track p;
     Payment.type := Payment.type p;
     Payment.date := Payment.date p;
     Payment.amount := Payment.amount p;
     Payment.account_id := Payment.account_id p;
     Payment.payment_method_id := Payment.payment_method_id p;
     Payment.payment_method_processor_id :=
       Payment.payment_method_processor_id p;
     Payment.subscription_id := Payment.subscription_id p;
     Payment.billing_cycle_id := Payment.billing_cycle_id p;
     Payment.retry_routing_ctx := Payment.retry_routing_ctx p;
     Payment.retry_sequence_nb := Payment.retry_sequence_nb p;
     Payment.retry_prev_payment_id := Payment.retry_prev_payment_id p;
     Payment.retry_annotation := Payment.retry_annotation p;
     Payment.retry_trace_data := Payment.retry_trace_data p;
     Payment.retry_logic_version := Payment.retry_logic_version p;
     Payment.memo := Payment.memo p;
     Payment.fail_reason :=
       match up_fail_reason input with
       | Some r => Some r
       | None => Payment.fail_reason p
       end |}.

(** Index of the row with identifier [id]. *)
Fixpoint row_index (id : string) (ps : list Payment.t) : option nat :=
  match ps with
  | [] => None
  | p :: ps' =>
      if String.eqb (Payment.id p) id then Some O
      else S <$> row_index id ps'
  end.

Definition Payment_update (id : string) (input : UpdatePaymentInput)
    : M (Result Payment.t) :=
  fun w =>
    if db_online w then
      match row_index id (payments w) with
      | Some i =>
          match payments w !! i with
          | Some row =>
              let payment := apply_update input row in
              (success payment,
               with_payments w (<[i := payment]> (payments w)))
          | None => (fail (DatabaseError "Failed to update payment"), w)
          end
      | None => (fail (DatabaseError "Failed to update payment"), w)
      end
    else (fail (DatabaseError "Failed to update payment"), w).

Definition BillingCycle_fetch_by_id (id : string)
    : M (Result (option BillingCycle.t)) :=
  fun w =>
    if db_online w then (success (billing_cycles w !! id), w)
    else (fail (DatabaseError "Failed to fetch billing cycle"), w).

Definition BillingCycle_update (id : string) (days : Z)
    : M (Result BillingCycle.t) :=
  fun w =>
    match (if db_online w then billing_cycles w !! id else None) with
    | Some bc =>
        let bc' := {| BillingCycle.id := BillingCycle.id bc;
                      BillingCycle.end_date := BillingCycle.end_date bc;
                      BillingCycle.days_overdue := Some days |} in
        (success bc', with_billing_cycles w (<[id := bc']> (billing_cycles w)))
    | None => (fail (DatabaseError "Failed to update billing cycle"), w)
    end.

Definition CustomerAccount_fetch_by_id (id : string)
    : M (Result (option CustomerAccount.t)) :=
  fun w =>
    if db_online w then (success (accounts w !! id), w)
    else (fail (DatabaseError "Failed to fetch customer account"), w).

Definition CustomerAccount_update (id : string) (amount date : Z)
    : M (Result CustomerAccount.t) :=
  fun w =>
    match (if db_online w then accounts w !! id else None) with
    | Some a =>
        let a' := {| CustomerAccount.id := CustomerAccount.id a;
                     CustomerAccount.balance_due_date :=
                       CustomerAccount.balance_due_date a;
                     CustomerAccount.last_failed_payment_amount := Some amount;
                     CustomerAccount.last_failed_payment_date := Some date |} in
        (success a', with_accounts w (<[id := a']> (accounts w)))
    | None => (fail (DatabaseError "Failed to update customer account"), w)
    end.

Definition PaymentMethod_update (id : string)
    (st : PaymentMethodStatus.t) (mm : string) : M (Result PaymentMethod.t) :=
  fun w =>
    match (if db_online w then payment_methods w !! id else None) with
    | Some m =>
        let m' := {| PaymentMethod.id := PaymentMethod.id m;
                     PaymentMethod.status := st;
                     PaymentMethod.memo := Some mm |} in
        (success m',
         with_payment_methods w (<[id := m']> (payment_methods w)))
    | None => (fail (DatabaseError "Failed to update payment method"), w)
    end.

(** ** The retry rules (handle_retry.ts) *)

Definition RETRY_LOGIC_VERSION : Z := 1.

Definition has (s : gset Z) (x : Z) : bool := bool_decide (x ∈ s).

Definition NOT_POSSIBLE_CODES : gset Z :=
  list_to_set [442; 443; 444; 445; 613; 615; 616; 640; 710].

Record Strategy := {
  st_instant : gset Z;
  st_scheduled_friday : gset Z;
  st_scheduled_friday_eom : gset Z;
  st_backoff : gset Z;
}.

Definition retryStrategy (b : TimeBucket) : Strategy :=
  match b with
  | TB_0_30D =>
      {| st_instant := list_to_set [904];
         st_scheduled_friday := list_to_set [441; 701; 706];
         st_scheduled_friday_eom := list_to_set [601];
         st_backoff := list_to_set [903; 440; 603; 604; 605; 606; 607; 777] |}
  | TB_31_60D =>
      {| st_instant := list_to_set [904];
         st_scheduled_friday := list_to_set [441; 701; 706];
         st_scheduled_friday_eom := list_to_set [601];
         st_backoff := list_to_set [903; 440; 603; 604; 605; 606; 607; 777] |}
  | TB_61_180D =>
      {| st_instant := list_to_set [904];
         st_scheduled_friday := list_to_set [];
         st_scheduled_friday_eom := list_to_set [441; 701; 706];
         st_backoff :=
           list_to_set [903; 440; 601; 603; 604; 605; 606; 607; 777] |}
  | TB_181D_plus =>
      {| st_instant := list_to_set [];
         st_scheduled_friday := list_to_set [];
         st_scheduled_friday_eom := list_to_set [];
         st_backoff :=
           list_to_set [904; 903; 440; 441; 601; 701; 706; 603; 604; 605;
                        606; 607; 777] |}
  end.

Definition getTimeBucket (days_overdue : Z) : TimeBucket :=
  if days_overdue <=? 30 then TB_0_30D
  else if days_overdue <=? 60 then TB_31_60D
  else if days_overdue <=? 180 then TB_61_180D
  else TB_181D_plus.

(** [None] is the source's [null]: the code is unknown. *)
Definition getRetryAction (code : Z) (timeBucket : TimeBucket)
    : option RetryAction :=
  if has NOT_POSSIBLE_CODES code then Some not_possible
  else
    let strategy := retryStrategy timeBucket in
    if has (st_instant strategy) code then Some instant
    else if has (st_scheduled_friday strategy) code then Some scheduled_friday
    else if has (st_scheduled_friday_eom strategy) code
         then Some scheduled_friday_eom
    else if has (st_backoff strategy) code then Some backoff
    else None.

Definition CODES_WITH_RETRY_LIMIT_12 : gset Z := list_to_set [441; 701; 706].
Definition CODES_WITH_STRIPE_EXCLUSION : gset Z :=
  list_to_set [904; 441; 601; 701; 706].

(** A string used as a condition is false when absent or empty. *)
Definition truthy (o : option string) : option string :=
  match o with
  | Some s => if String.eqb s "" then None else Some s
  | None => None
  end.

Definition is_61_180D (b : TimeBucket) : bool :=
  match b with TB_61_180D => true | _ => false end.
Definition is_31_60D (b : TimeBucket) : bool :=
  match b with TB_31_60D => true | _ => false end.

Definition handle_retry (payment : Payment.t) : M (Result Payment.t) :=
  match Payment.code payment with
  | None => ret (fail (ServerInternalError "Payment has no failure code"))
  | Some code =>
  match truthy (Payment.billing_cycle_id payment) with
  | None => ret (fail (ServerInternalError "Payment has no billing cycle"))
  | Some billing_cycle_id =>
  let* billingCycleResult := BillingCycle_fetch_by_id billing_cycle_id in
  match billingCycleResult with
  | fail _ | success None =>
      ret (fail (ServerInternalError "Could not fetch billing cycle"))
  | success (Some billingCycle) =>
  let days_overdue := default 0 (BillingCycle.days_overdue billingCycle) in
  let timeBucket := getTimeBucket days_overdue in
  let action := getRetryAction code timeBucket in
  let action :=
    if is_61_180D timeBucket && has CODES_WITH_RETRY_LIMIT_12 code
       && (Payment.retry_sequence_nb payment >? 12)
    then Some backoff else action in
  match action with
  | None =>
      ret (fail (ServerInternalError
                   ("No retry strategy for code " +:+ pretty code
                    +:+ " in bucket " +:+ TimeBucket_to_string timeBucket)))
  | Some not_possible =>
      logger "handle_retry" error "Retry not possible for this failure code";;
      ret (fail (ServerInternalError
                   ("Retry not possible for code " +:+ pretty code +:+
                    " - this is an EFT failure that cannot be retried")))
  | Some backoff =>
      logger "handle_retry" warn "Backoff retry - no action taken";;
      ret (success payment)
  | Some action =>
  let* balanceDueDate :=
    match action with
    | scheduled_friday | scheduled_friday_eom =>
        let* accountResult :=
          CustomerAccount_fetch_by_id (Payment.account_id payment) in
        match accountResult with
        | success (Some account) =>
            ret (CustomerAccount.balance_due_date account)
        | _ => ret None
        end
    | _ => ret None
    end in
  let* retry :=
    match action with
    | instant =>
        let* today := new_Date in ret (today, "instant_retry")
    | scheduled_friday =>
        let* from := new_Date in
        ret (getScheduledDate friday balanceDueDate from,
             "scheduled_friday_or_balance_due")
    | _ =>
        let* from := new_Date in
        ret (getScheduledDate friday_eom balanceDueDate from,
             "scheduled_friday_eom_or_balance_due")
    end in
  let retryDate := fst retry in
  let retryReason := snd retry in
  let retryTrack :=
    if code =? 904 then PaymentTrack.ANY_CARD else PaymentTrack.BANK_CARD in
  let retryRoutingCtx := Payment.retry_routing_ctx payment in
  let retryRoutingCtx :=
    if is_31_60D timeBucket && has CODES_WITH_STRIPE_EXCLUSION code
       && (Payment.retry_sequence_nb payment >? 8)
    then retryRoutingCtx ++ ["exclude_stripe"] else retryRoutingCtx in
  let* retry_timestamp := new_Date in
  let* retryPayment :=
    Payment_create
      {| in_account := Payment.account_id payment;
         in_date := retryDate;
         in_amount := Payment.amount payment;
         in_type := Payment.type payment;
         in_direction :=
           default PaymentDirectionType.ACCOUNT_RECEIVABLE
                   (Payment.direction payment);
         in_track := retryTrack;
         in_status := PaymentStatus.SCHEDULED;
         in_payment_method := truthy (Payment.payment_method_id payment);
         in_payment_method_processor :=
           truthy (Payment.payment_method_processor_id payment);
         in_subscription := truthy (Payment.subscription_id payment);
         in_billing_cycle := Some billing_cycle_id;
         in_retry_prev_payment_id := Payment.id payment;
         in_retry_sequence_nb := Payment.retry_sequence_nb payment + 1;
         in_retry_routing_ctx := retryRoutingCtx;
         in_retry_annotation :=
           RetryAction_to_string action +:+ " retry of payment "
           +:+ Payment.id payment;
         in_retry_logic_version := RETRY_LOGIC_VERSION;
         in_retry_trace_data :=
           {| original_payment_id := Payment.id payment;
              original_code := Payment.code payment;
              retry_reason := retryReason;
              retry_timestamp := retry_timestamp;
              scheduled_date := retryDate;
              time_bucket := timeBucket;
              trace_days_overdue := days_overdue |};
         in_memo :=
           "Retry attempt #"
           +:+ pretty (Payment.retry_sequence_nb payment + 1)
           +:+ " for original payment" |} in
  match retryPayment with
  | success data => ret (success data)
  | fail _ =>
      ret (fail (ServerInternalError "Failed to create retry payment"))
  end
  end
  end
  end
  end.

(** ** The failure handler (handle_failed_pull_funds.ts) and its caller *)

Definition detail (e : ApplicationError) : string :=
  match e with DatabaseError d => d | ServerInternalError m => m end.

Section FailureHandler.

(** [is_hard_decline_code] and the members of [PaymentStatusCode] that key
    the table of [get_fail_reason_from_code] are declared in
    PaymentStatusCode.ts, which is not in the source tree. *)
Variable is_hard_decline_code : Z -> bool.
Variable get_fail_reason_from_code : Z -> string.

Definition handle_failed_pull_funds (payment : Payment.t) (code : Z)
    (ref_date : option Z) : M (Result Payment.t) :=
  let* ref_date :=
    match ref_date with Some d => ret d | None => new_Date end in
  logger "handle_failed_pull_funds" info "Handling Failed PULL funds";;
  match Payment.status payment with
  | PaymentStatus.FAILED =>
      logger "handle_failed_pull_funds" warn
             "Payment already in FAILED status, skipping";;
      ret (success payment)
  | _ =>
  let* update_result :=
    Payment_update (Payment.id payment)
      {| up_status := Some PaymentStatus.FAILED;
         up_code := Some code;
         up_fail_reason := Some (get_fail_reason_from_code code) |} in
  match update_result with
  | fail e =>
      logger "handle_failed_pull_funds" error
             "Failed to update payment status to FAILED";;
      ret (fail (ServerInternalError
                   (if String.eqb (detail e) ""
                    then "Failed to update payment" else detail e)))
  | success payment =>
  (match truthy (Payment.payment_method_id payment) with
   | Some payment_method_id =>
       if is_hard_decline_code code then
         logger "handle_failed_pull_funds" info
                "Encountered hard decline, invalidating payment method";;
         PaymentMethod_update payment_method_id PaymentMethodStatus.INVALID
           ("Invalidated by system due to hard decline code: "
            +:+ pretty code);;
         ret tt
       else ret tt
   | None => ret tt
   end);;
  let* account_result :=
    CustomerAccount_fetch_by_id (Payment.account_id payment) in
  (match account_result with
   | success (Some account) =>
       let* today := new_Date in
       CustomerAccount_update (CustomerAccount.id account)
         (Payment.amount payment) today;;
       logger "handle_failed_pull_funds" info
              "Updated account metrics for failed payment"
   | _ => ret tt
   end);;
  (match truthy (Payment.billing_cycle_id payment) with
   | Some billing_cycle_id =>
       let* billing_cycle_result :=
         BillingCycle_fetch_by_id billing_cycle_id in
       match billing_cycle_result with
       | success (Some billing_cycle) =>
           let days_overdue :=
             Z.max 0 ((ref_date - BillingCycle.end_date billing_cycle)
                      / (1000 * 60 * 60 * 24)) in
           BillingCycle_update (BillingCycle.id billing_cycle) days_overdue;;
           logger "handle_failed_pull_funds" info
                  "Updated billing cycle days_overdue"
       | _ => ret tt
       end
   | None => ret tt
   end);;
  ret (success payment)
  end
  end.

(** The branch of [pull_funds] taken when the processor reports a failure
    code: the failure handler, then the retry resolver on its result. *)
Definition pull_funds_failed (payment : Payment.t) (payment_status_code : Z)
    (ref_date : option Z) : M (Result Payment.t) :=
  let* ref_date :=
    match ref_date with Some d => ret d | None => new_Date end in
  let* fail_result :=
    handle_failed_pull_funds payment payment_status_code (Some ref_date) in
  let payment := default payment (safe_unwrap fail_result) in
  let* result := handle_retry payment in
  let payment := if ok result then default payment (safe_unwrap result)
                 else payment in
  ret (success payment).

End FailureHandler.

(** ** The rule table as the specification words it *)

(** These definitions follow the text of the specification (data model
    and rule table of section 4.2), not the code; the theorems compare
    them with [handle_retry]. *)
Inductive SpecAction :=
  | Instant
  | ScheduleFriday
  | ScheduleFridayEOM
  | AlertAndBackoff
  | Backoff
  | NotPossible.

Inductive Directive := UseCard | TryBankThenCard | NoChange.

Definition in_codes (code : Z) (l : list Z) : bool :=
  existsb (Z.eqb code) l.

(** One row of the table per clause; a [NotPossible] cell carries no
    directive. *)
Definition rule_table (code : Z) (b : TimeBucket)
    : option (SpecAction * option Directive) :=
  if in_codes code [904] then
    match b with
    | TB_181D_plus => Some (Backoff, Some NoChange)
    | _ => Some (Instant, Some UseCard)
    end
  else if in_codes code [903; 440; 603; 604; 605; 606; 607; 777] then
    match b with
    | TB_0_30D | TB_31_60D => Some (AlertAndBackoff, Some NoChange)
    | _ => Some (Backoff, Some NoChange)
    end
  else if in_codes code [441; 701; 706] then
    match b with
    | TB_0_30D | TB_31_60D => Some (ScheduleFriday, Some TryBankThenCard)
    | TB_61_180D => Some (ScheduleFridayEOM, Some TryBankThenCard)
    | TB_181D_plus => Some (Backoff, Some NoChange)
    end
  else if in_codes code [601] then
    match b with
    | TB_0_30D | TB_31_60D => Some (ScheduleFridayEOM, Some TryBankThenCard)
    | _ => Some (Backoff, Some NoChange)
    end
  else if in_codes code [444; 445; 442; 443; 613; 615; 616; 640; 710] then
    Some (NotPossible, None)
  else None.

(** The two retry-count overrides of section 4.3. *)
Definition exclusion_triggers (b : TimeBucket) (code seq : Z) : bool :=
  match b with
  | TB_31_60D => in_codes code [904; 441; 601; 701; 706] && (8 <? seq)
  | _ => false
  end.

Definition forced_backoff_triggers (b : TimeBucket) (code seq : Z) : bool :=
  match b with
  | TB_61_180D => in_codes code [441; 701; 706] && (12 <? seq)
  | _ => false
  end.

Definition directive_of_track (t : option PaymentTrack.t)
    : option Directive :=
  match t with
  | Some PaymentTrack.ANY_CARD => Some UseCard
  | Some PaymentTrack.BANK_CARD => Some TryBankThenCard
  | None => None
  end.

Definition spec_reason (a : SpecAction) : string :=
  match a with
  | Instant => "instant_retry"
  | ScheduleFriday => "scheduled_friday_or_balance_due"
  | _ => "scheduled_friday_eom_or_balance_due"
  end.

(** The error of [handle_retry] for a code that cannot be retried. *)
Definition not_possible_error (code : Z) : ApplicationError :=
  ServerInternalError
    ("Retry not possible for code " +:+ pretty code +:+
     " - this is an EFT failure that cannot be retried").

(** What it means for a run of [handle_retry] on [payment] in world [w]
    to yield a tabulated action and directive: a retry action shows as a
    new row that records that action's reason and whose track is the
    directive; the two backoffs return the payment itself and create
    nothing, and differ by whether an alert left; [NotPossible] is the
    retry-not-possible error for the code of the payment, which no other
    failure of the resolver equals, and creates nothing. *)
Definition yields (payment : Payment.t) (w : World) (a : SpecAction)
    (d : option Directive) : Prop :=
  let (r, w') := handle_retry payment w in
  match a with
  | Instant | ScheduleFriday | ScheduleFridayEOM =>
      exists s, r = success s /\ payments w' = payments w ++ [s] /\
        retry_reason <$> Payment.retry_trace_data s = Some (spec_reason a) /\
        directive_of_track (Payment.track s) = d
  | AlertAndBackoff =>
      r = success payment /\ payments w' = payments w /\
      alerts w' <> alerts w /\ d = Some NoChange
  | Backoff =>
      r = success payment /\ payments w' = payments w /\
      alerts w' = alerts w /\ d = Some NoChange
  | NotPossible =>
      (exists code, Payment.code payment = Some code /\
                    r = fail (not_possible_error code)) /\
      payments w' = payments w /\ d = None
  end.

(** The action of the code that stands for a tabulated action; the code
    has no action of its own for [AlertAndBackoff]. *)
Definition code_action (a : SpecAction) : RetryAction :=
  match a with
  | Instant => instant
  | ScheduleFriday => scheduled_friday
  | ScheduleFridayEOM => scheduled_friday_eom
  | AlertAndBackoff | Backoff => backoff
  | NotPossible => not_possible
  end.

Definition without_alert (a : SpecAction) : SpecAction :=
  match a with AlertAndBackoff => Backoff | _ => a end.

(** ** Names for the steps of [handle_retry] *)

(** Names for the intermediate values of [handle_retry]: the action it
    settles on (bucket, table lookup, forced backoff), the balance due
    date it reads, the date and reason it derives from the action, the
    routing context, and the object it hands to [Payment.create]. *)
Definition resolved_action (code days seq : Z) : option RetryAction :=
  let timeBucket := getTimeBucket days in
  if is_61_180D timeBucket && has CODES_WITH_RETRY_LIMIT_12 code
     && (seq >? 12)
  then Some backoff else getRetryAction code timeBucket.

Definition balance_due (w : World) (payment : Payment.t) : option Z :=
  match accounts w !! Payment.account_id payment with
  | Some account => CustomerAccount.balance_due_date account
  | None => None
  end.

Definition retry_date (a : RetryAction) (bal : option Z) (from : Z) : Z :=
  match a with
  | instant => from
  | scheduled_friday => getScheduledDate friday bal from
  | _ => getScheduledDate friday_eom bal from
  end.

Definition retry_reason_of (a : RetryAction) : string :=
  match a with
  | instant => "instant_retry"
  | scheduled_friday => "scheduled_friday_or_balance_due"
  | _ => "scheduled_friday_eom_or_balance_due"
  end.

Definition retry_track (code : Z) : PaymentTrack.t :=
  if code =? 904 then PaymentTrack.ANY_CARD else PaymentTrack.BANK_CARD.

Definition retry_routing (payment : Payment.t) (code days : Z)
    : list string :=
  if is_31_60D (getTimeBucket days) && has CODES_WITH_STRIPE_EXCLUSION code
     && (Payment.retry_sequence_nb payment >? 8)
  then Payment.retry_routing_ctx payment ++ ["exclude_stripe"]
  else Payment.retry_routing_ctx payment.

Definition retry_input (payment : Payment.t) (code : Z) (bcid : string)
    (days : Z) (a : RetryAction) (bal : option Z) (today : Z)
    : PaymentCreateInput :=
  {| in_account := Payment.account_id payment;
     in_date := retry_date a bal today;
     in_amount := Payment.amount payment;
     in_type := Payment.type payment;
     in_direction :=
       default PaymentDirectionType.ACCOUNT_RECEIVABLE
               (Payment.direction payment);
     in_track := retry_track code;
     in_status := PaymentStatus.SCHEDULED;
     in_payment_method := truthy (Payment.payment_method_id payment);
     in_payment_method_processor :=
       truthy (Payment.payment_method_processor_id payment);
     in_subscription := truthy (Payment.subscription_id payment);
     in_billing_cycle := Some bcid;
     in_retry_prev_payment_id := Payment.id payment;
     in_retry_sequence_nb := Payment.retry_sequence_nb payment + 1;
     in_retry_routing_ctx := retry_routing payment code days;
     in_retry_annotation :=
       RetryAction_to_string a +:+ " retry of payment "
       +:+ Payment.id payment;
     in_retry_logic_version := RETRY_LOGIC_VERSION;
     in_retry_trace_data :=
       {| original_payment_id := Payment.id payment;
          original_code := Payment.code payment;
          retry_reason := retry_reason_of a;
          retry_timestamp := today;
          scheduled_date := retry_date a bal today;
          time_bucket := getTimeBucket days;
          trace_days_overdue := days |};
     in_memo :=
       "Retry attempt #" +:+ pretty (Payment.retry_sequence_nb payment + 1)
       +:+ " for original payment" |}.

(** The successor row [handle_retry] creates for action [a]. *)
Definition successor (payment : Payment.t) (w : World) (code : Z)
    (bcid : string) (days : Z) (a : RetryAction) : Payment.t :=
  Payment_of_input (fresh_id w (length (payments w)))
    (retry_input payment code bcid days a
       (match a with instant => None | _ => balance_due w payment end)
       (now w)).

Definition unknown_code_error (code : Z) (b : TimeBucket)
    : ApplicationError :=
  ServerInternalError
    ("No retry strategy for code " +:+ pretty code +:+ " in bucket "
     +:+ TimeBucket_to_string b).

Definition log_entry (name : string) (lv : LogLevel) (msg : string)
    : LogEntry :=
  {| logger_name := name; level := lv; message := msg |}.

(** The payment carries a failure code and a billing cycle that the store
    returns. *)
Record retry_ready (payment : Payment.t) (w : World) (code : Z)
    (bcid : string) (bc : BillingCycle.t) : Prop := {
  ready_code : Payment.code payment = Some code;
  ready_cycle : truthy (Payment.billing_cycle_id payment) = Some bcid;
  ready_db : db_online w = true;
  ready_fetch : billing_cycles w !! bcid = Some bc;
}.

Definition days_of (bc : BillingCycle.t) : Z :=
  default 0 (BillingCycle.days_overdue bc).

Definition retries (a : RetryAction) : bool :=
  match a with
  | instant | scheduled_friday | scheduled_friday_eom => true
  | _ => false
  end.

Definition known_codes : list Z :=
  [904; 903; 440; 603; 604; 605; 606; 607; 777; 441; 701; 706; 601;
   444; 445; 442; 443; 613; 615; 616; 640; 710].

Definition table_directive (code : Z) (a : RetryAction)
    : option Directive :=
  match a with
  | instant | scheduled_friday | scheduled_friday_eom =>
      directive_of_track (Some (retry_track code))
  | backoff => Some NoChange
  | not_possible => None
  end.

(** As the specification words it: [t] falls on a Friday of month [m]
    (0 = January) of year [y], and one week later the month is over. *)
Definition last_friday_of (y m t : Z) : bool :=
  (getFullYear t =? y) && (getMonth t =? m) && (getDay t =? 5)
  && negb (getMonth (t + 7 * msPerDay) =? m).

(** The month after month [m] of year [y]. *)
Definition next_month (y m : Z) : Z * Z :=
  if m =? 11 then (y + 1, 0) else (y, m + 1).

Definition is_successor_of (payment s : Payment.t) : bool :=
  match Payment.retry_prev_payment_id s with
  | Some prev => String.eqb prev (Payment.id payment)
  | None => false
  end.

Definition successors_of (payment : Payment.t) (ps : list Payment.t)
    : list Payment.t :=
  List.filter (is_successor_of payment) ps.

(** ** Example worlds *)

(** A failed payment of account [acc_1] in billing cycle [bc_1], and a
    world that holds it, the account and the cycle. *)
Definition ex_payment (code seq : Z) : Payment.t :=
  {| Payment.id := "pay_1";
     Payment.status := PaymentStatus.FAILED;
     Payment.code := Some code;
     Payment.direction := Some PaymentDirectionType.ACCOUNT_RECEIVABLE;
     Payment.track := Some PaymentTrack.BANK_CARD;
     Payment.type := PaymentType.SUBSCRIPTION;
     Payment.date := 1735689600000;
     Payment.amount := 4900;
     Payment.account_id := "acc_1";
     Payment.payment_method_id := Some "pm_1";
     Payment.payment_method_processor_id := None;
     Payment.subscription_id := Some "sub_1";
     Payment.billing_cycle_id := Some "bc_1";
     Payment.retry_routing_ctx := [];
     Payment.retry_sequence_nb := seq;
     Payment.retry_prev_payment_id := None;
     Payment.retry_annotation := None;
     Payment.retry_trace_data := None;
     Payment.retry_logic_version := None;
     Payment.memo := None;
     Payment.fail_reason := Some "Payment failed" |}.

Definition ex_cycle (days : Z) : BillingCycle.t :=
  {| BillingCycle.id := "bc_1";
     BillingCycle.end_date := 1735689600000;
     BillingCycle.days_overdue := Some days |}.

Definition ex_account : CustomerAccount.t :=
  {| CustomerAccount.id := "acc_1";
     CustomerAccount.balance_due_date := None;
     CustomerAccount.last_failed_payment_amount := None;
     CustomerAccount.last_failed_payment_date := None |}.

(** The clock reads Friday 31 January 2025, 12:00 UTC. *)
Definition ex_now : Z := 1738324800000.

Definition ex_world (code seq days : Z) : World :=
  {| payments := [ex_payment code seq];
     payment_methods := ∅;
     accounts := {[ "acc_1" := ex_account ]};
     billing_cycles := {[ "bc_1" := ex_cycle days ]};
     db_online := true;
     fresh_id := fun n => "retry_" +:+ pretty n;
     now := ex_now;
     log := [];
     alerts := [] |}.

(** ** Billing cycles across a run *)

(** Every billing cycle of [w'] is as it is in [w], or has a number of
    days overdue that is not negative. *)
Definition cycles_kept_or_clamped (w w' : World) : Prop :=
  forall id bc',
    billing_cycles w' !! id = Some bc' ->
    billing_cycles w !! id = Some bc' \/
    exists d, BillingCycle.days_overdue bc' = Some d /\ 0 <= d.

(** [c] relates the world it starts in to the world it ends in by [R]. *)
Definition establishes {A} (R : World -> World -> Prop) (c : M A) : Prop :=
  forall w, R w (snd (c w)).

(** ** Orders and counts used by the further properties *)

(** The buckets in order of age. *)
Definition bucket_rank (b : TimeBucket) : Z :=
  match b with
  | TB_0_30D => 0
  | TB_31_60D => 1
  | TB_61_180D => 2
  | TB_181D_plus => 3
  end.

(** How many of the five code sets consulted by [getRetryAction] in
    bucket [b] hold [code]. *)
Definition memberships (code : Z) (b : TimeBucket) : nat :=
  let strategy := retryStrategy b in
  (Nat.b2n (has NOT_POSSIBLE_CODES code)
   + Nat.b2n (has (st_instant strategy) code)
   + Nat.b2n (has (st_scheduled_friday strategy) code)
   + Nat.b2n (has (st_scheduled_friday_eom strategy) code)
   + Nat.b2n (has (st_backoff strategy) code))%nat.

(** ** Names for the effects of [handle_failed_pull_funds] *)

(** The update the failure handler applies to the payment row. *)
Definition failed_input (code : Z) (reason : string) : UpdatePaymentInput :=
  {| up_status := Some PaymentStatus.FAILED;
     up_code := Some code;
     up_fail_reason := Some reason |}.

Definition invalidated (m : PaymentMethod.t) (code : Z) : PaymentMethod.t :=
  {| PaymentMethod.id := PaymentMethod.id m;
     PaymentMethod.status := PaymentMethodStatus.INVALID;
     PaymentMethod.memo :=
       Some ("Invalidated by system due to hard decline code: "
             +:+ pretty code) |}.

(** The payment methods after the hard-decline step. *)
Definition methods_after (hard : bool) (failed : Payment.t) (code : Z)
    (w : World) : gmap string PaymentMethod.t :=
  match truthy (Payment.payment_method_id failed) with
  | Some payment_method_id =>
      if hard then
        match payment_methods w !! payment_method_id with
        | Some m => <[payment_method_id := invalidated m code]>
                      (payment_methods w)
        | None => payment_methods w
        end
      else payment_methods w
  | None => payment_methods w
  end.

Definition with_last_failure (a : CustomerAccount.t) (amount today : Z)
    : CustomerAccount.t :=
  {| CustomerAccount.id := CustomerAccount.id a;
     CustomerAccount.balance_due_date := CustomerAccount.balance_due_date a;
     CustomerAccount.last_failed_payment_amount := Some amount;
     CustomerAccount.last_failed_payment_date := Some today |}.

(** The accounts after the account-metrics step. *)
Definition accounts_after (failed : Payment.t) (w : World)
    : gmap string CustomerAccount.t :=
  match accounts w !! Payment.account_id failed with
  | Some account =>
      match accounts w !! CustomerAccount.id account with
      | Some a =>
          <[CustomerAccount.id account :=
              with_last_failure a (Payment.amount failed) (now w)]>
            (accounts w)
      | None => accounts w
      end
  | None => accounts w
  end.

Definition with_days_overdue (bc : BillingCycle.t) (days : Z)
    : BillingCycle.t :=
  {| BillingCycle.id := BillingCycle.id bc;
     BillingCycle.end_date := BillingCycle.end_date bc;
     BillingCycle.days_overdue := Some days |}.

(** The days overdue the failure handler computes for a billing cycle. *)
Definition days_overdue_at (ref_date : Z) (bc : BillingCycle.t) : Z :=
  Z.max 0 ((ref_date - BillingCycle.end_date bc) / (1000 * 60 * 60 * 24)).

(** The billing cycles after the days-overdue step. *)
Definition cycles_after (failed : Payment.t) (ref_date : Z) (w : World)
    : gmap string BillingCycle.t :=
  match truthy (Payment.billing_cycle_id failed) with
  | Some billing_cycle_id =>
      match billing_cycles w !! billing_cycle_id with
      | Some billing_cycle =>
          match billing_cycles w !! BillingCycle.id billing_cycle with
          | Some bc =>
              <[BillingCycle.id billing_cycle :=
                  with_days_overdue bc (days_overdue_at ref_date billing_cycle)]>
                (billing_cycles w)
          | None => billing_cycles w
          end
      | None => billing_cycles w
      end
  | None => billing_cycles w
  end.

(** ** A payment that is due *)

(** The payment of the examples before it failed: SCHEDULED, no code. *)
Definition ex_due (seq : Z) : Payment.t :=
  {| Payment.id := "pay_1";
     Payment.status := PaymentStatus.SCHEDULED;
     Payment.code := None;
     Payment.direction := Some PaymentDirectionType.ACCOUNT_RECEIVABLE;
     Payment.track := Some PaymentTrack.BANK_CARD;
     Payment.type := PaymentType.SUBSCRIPTION;
     Payment.date := 1735689600000;
     Payment.amount := 4900;
     Payment.account_id := "acc_1";
     Payment.payment_method_id := Some "pm_1";
     Payment.payment_method_processor_id := None;
     Payment.subscription_id := Some "sub_1";
     Payment.billing_cycle_id := Some "bc_1";
     Payment.retry_routing_ctx := [];
     Payment.retry_sequence_nb := seq;
     Payment.retry_prev_payment_id := None;
     Payment.retry_annotation := None;
     Payment.retry_trace_data := None;
     Payment.retry_logic_version := None;
     Payment.memo := None;
     Payment.fail_reason := None |}.

Definition ex_method : PaymentMethod.t :=
  {| PaymentMethod.id := "pm_1";
     PaymentMethod.status := PaymentMethodStatus.VALID;
     PaymentMethod.memo := None |}.

(** A world that holds it, with its payment method; the billing cycle
    ended on 1 January 2025 and the clock reads 31 January 2025. *)
Definition ex_due_world (seq : Z) : World :=
  {| payments := [ex_due seq];
     payment_methods := {[ "pm_1" := ex_method ]};
     accounts := {[ "acc_1" := ex_account ]};
     billing_cycles := {[ "bc_1" := ex_cycle 0 ]};
     db_online := true;
     fresh_id := fun n => "retry_" +:+ pretty n;
     now := ex_now;
     log := [];
     alerts := [] |}.

(** The same world with the database out of reach. *)
Definition ex_offline_world (seq : Z) : World :=
  {| payments := [ex_due seq];
     payment_methods := {[ "pm_1" := ex_method ]};
     accounts := {[ "acc_1" := ex_account ]};
     billing_cycles := {[ "bc_1" := ex_cycle 0 ]};
     db_online := false;
     fresh_id := fun n => "retry_" +:+ pretty n;
     now := ex_now;
     log := [];
     alerts := [] |}.

(** The rows of [w'] bear the identifiers of the rows of [w], in the same
    order, and no alert left in between. *)
Definition rows_kept (w w' : World) : Prop :=
  Payment.id <$> payments w' = Payment.id <$> payments w /\
  alerts w' = alerts w.

(** * Theorems *)

(** ** Calendar facts *)

Lemma DayFromYear_succ y : DayFromYear (y + 1) = DayFromYear y + DaysInYear y.
Proof.
  unfold DayFromYear, DaysInYear.
  repeat match goal with
         | |- context [ ?a =? ?b ] => destruct (Z.eqb_spec a b)
         end; cbn [negb]; Z.div_mod_to_equations; lia.
Qed.

Lemma DaysInYear_cases y : DaysInYear y = 365 + InLeapYear y /\ 0 <= InLeapYear y <= 1.
Proof.
  unfold InLeapYear, DaysInYear.
  repeat match goal with
         | |- context [ ?a =? ?b ] => destruct (Z.eqb_spec a b)
         end; cbn [negb] in *; lia.
Qed.

(** The computed year is the one ECMAScript specifies. *)
Lemma YearFromDay_spec d :
  DayFromYear (YearFromDay d) <= d < DayFromYear (YearFromDay d + 1).
Proof.
  unfold YearFromDay.
  set (y0 := 1970 + 400 * d / 146097).
  destruct (Z.ltb_spec d (DayFromYear y0)) as [H1|H1].
  - replace (y0 - 1 + 1) with y0 by lia. split; [|lia].
    unfold DayFromYear in *. subst y0. Z.div_mod_to_equations. lia.
  - destruct (Z.leb_spec (DayFromYear (y0 + 1)) d) as [H2|H2]; [|lia].
    split; [lia|].
    unfold DayFromYear in *. subst y0. Z.div_mod_to_equations. lia.
Qed.

Lemma DayFromYear_mono y1 y2 : y1 <= y2 -> DayFromYear y1 <= DayFromYear y2.
Proof. unfold DayFromYear. intros. Z.div_mod_to_equations. lia. Qed.

Lemma YearFromDay_largest d y : DayFromYear y <= d -> y <= YearFromDay d.
Proof.
  intros H. destruct (YearFromDay_spec d) as [_ Hu].
  destruct (Z.le_gt_cases y (YearFromDay d)) as [|Hgt]; [assumption|].
  pose proof (DayFromYear_mono (YearFromDay d + 1) y). lia.
Qed.

Lemma DayWithinYear_range t :
  0 <= DayWithinYear t < 365 + InLeapYear (YearFromTime t).
Proof.
  unfold DayWithinYear, YearFromTime.
  pose proof (YearFromDay_spec (Day t)) as H.
  rewrite DayFromYear_succ in H.
  pose proof (DaysInYear_cases (YearFromDay (Day t))). lia.
Qed.

Lemma MonthFromTime_range t : 0 <= MonthFromTime t <= 11.
Proof.
  unfold MonthFromTime.
  repeat match goal with
         | |- context [ ?a <? ?b ] => destruct (Z.ltb_spec a b)
         end; lia.
Qed.

Ltac split_tests :=
  repeat match goal with
         | |- context [ ?a <? ?b ] => destruct (Z.ltb_spec a b)
         | |- context [ ?a <=? ?b ] => destruct (Z.leb_spec a b)
         | |- context [ ?a =? ?b ] => destruct (Z.eqb_spec a b)
         end.

Lemma MonthStart_values y :
  let l := InLeapYear y in
  MonthStart y 0 = 0 /\ MonthStart y 1 = 31 /\ MonthStart y 2 = 59 + l /\
  MonthStart y 3 = 90 + l /\ MonthStart y 4 = 120 + l /\
  MonthStart y 5 = 151 + l /\ MonthStart y 6 = 181 + l /\
  MonthStart y 7 = 212 + l /\ MonthStart y 8 = 243 + l /\
  MonthStart y 9 = 273 + l /\ MonthStart y 10 = 304 + l /\
  MonthStart y 11 = 334 + l /\ MonthStart y 12 = 365 + l.
Proof. repeat split. Qed.

(** Evaluates [k + 1] for a literal [k]. *)
Ltac lit_succ :=
  repeat match goal with
         | |- context [ Z0 + 1 ] => change (Z0 + 1) with 1
         | |- context [ Zpos ?p + 1 ] =>
             let v := eval vm_compute in (Zpos p + 1) in
             change (Zpos p + 1) with v
         end.

Ltac lit_succ_hyps :=
  repeat match goal with
         | H : context [ Z0 + 1 ] |- _ => change (Z0 + 1) with 1 in H
         | H : context [ Zpos ?p + 1 ] |- _ =>
             let v := eval vm_compute in (Zpos p + 1) in
             change (Zpos p + 1) with v in H
         end.

Ltac month_starts y :=
  let H := fresh in
  pose proof (MonthStart_values y) as H; cbv zeta in H;
  decompose [and] H; clear H.

(** Every month has between 28 and 31 days. *)
Lemma MonthStart_step y m :
  0 <= m <= 11 -> 28 <= MonthStart y (m + 1) - MonthStart y m <= 31.
Proof.
  intros Hm. pose proof (DaysInYear_cases y) as [_ Hl].
  month_starts y.
  assert (m = 0 \/ m = 1 \/ m = 2 \/ m = 3 \/ m = 4 \/ m = 5 \/ m = 6 \/
          m = 7 \/ m = 8 \/ m = 9 \/ m = 10 \/ m = 11) as Hc by lia.
  repeat destruct Hc as [->|Hc]; try subst m; lit_succ; lia.
Qed.

(** A day lies within the month [MonthFromTime] assigns to it. *)
Lemma MonthFromTime_bounds t :
  MonthStart (YearFromTime t) (MonthFromTime t) <= DayWithinYear t
    < MonthStart (YearFromTime t) (MonthFromTime t + 1).
Proof.
  pose proof (DayWithinYear_range t) as Hd.
  pose proof (DaysInYear_cases (YearFromTime t)) as [_ Hl].
  month_starts (YearFromTime t).
  unfold MonthFromTime.
  repeat match goal with
         | |- context [ ?a <? ?b ] => destruct (Z.ltb_spec a b)
         end; lit_succ; lia.
Qed.

Lemma DateFromTime_range t : 1 <= DateFromTime t <= 31.
Proof.
  unfold DateFromTime.
  pose proof (MonthFromTime_bounds t).
  pose proof (MonthStart_step (YearFromTime t) (MonthFromTime t)
                (MonthFromTime_range t)).
  lia.
Qed.

Lemma Day_MakeDate d tm : 0 <= tm < msPerDay -> Day (MakeDate d tm) = d.
Proof.
  unfold Day, MakeDate, msPerDay. intros. Z.div_mod_to_equations. lia.
Qed.

Lemma TimeWithinDay_range t : 0 <= TimeWithinDay t < msPerDay.
Proof. unfold TimeWithinDay, msPerDay. apply Z.mod_pos_bound. lia. Qed.

Lemma Day_TimeWithinDay t : t = MakeDate (Day t) (TimeWithinDay t).
Proof.
  unfold MakeDate, Day, TimeWithinDay, msPerDay. Z.div_mod_to_equations. lia.
Qed.

(** The calendar fields of an instant determine its day number. *)
Lemma Day_of_fields t :
  Day t = MakeDay (YearFromTime t) (MonthFromTime t) (DateFromTime t).
Proof.
  pose proof (MonthFromTime_range t) as Hm.
  unfold MakeDay, DateFromTime, DayWithinYear.
  rewrite Z.div_small, Z.mod_small by lia.
  rewrite Z.add_0_r. lia.
Qed.

(** [date.setDate(date.getDate() + k)] moves [date] by [k] whole days. *)
Lemma setDate_getDate t k : setDate t (getDate t + k) = t + k * msPerDay.
Proof.
  unfold setDate, getDate.
  pose proof (Day_of_fields t) as Hf.
  pose proof (Day_TimeWithinDay t) as Ht.
  unfold MakeDay, MakeDate in *. lia.
Qed.

Lemma WeekDay_range t : 0 <= WeekDay t <= 6.
Proof. unfold WeekDay. pose proof (Z.mod_pos_bound (Day t + 4) 7). lia. Qed.

Lemma Day_add_days t k : Day (t + k * msPerDay) = Day t + k.
Proof. unfold Day, msPerDay. Z.div_mod_to_equations. lia. Qed.

Lemma Day_lt_later t d : Day t < d -> t < MakeDate d 0.
Proof.
  unfold Day, MakeDate, msPerDay. intros. Z.div_mod_to_equations. lia.
Qed.

(** First day of the month after month [m] of year [y]. *)
Lemma MakeDay_next_month y m dt :
  0 <= m <= 11 ->
  MakeDay y (m + 1) dt = DayFromYear y + MonthStart y (m + 1) + dt - 1.
Proof.
  intros Hm. unfold MakeDay.
  destruct (Z.eq_dec m 11) as [->|Hne].
  - change ((11 + 1) / 12) with 1. change ((11 + 1) mod 12) with 0.
    rewrite DayFromYear_succ.
    pose proof (DaysInYear_cases y) as [-> _].
    month_starts y. month_starts (y + 1). change (11 + 1) with 12. lia.
  - rewrite Z.div_small, Z.mod_small by lia. rewrite Z.add_0_r. lia.
Qed.

(** An instant precedes the first day of the month after its own. *)
Lemma Day_before_next_month t :
  Day t < DayFromYear (YearFromTime t)
          + MonthStart (YearFromTime t) (MonthFromTime t + 1).
Proof.
  pose proof (MonthFromTime_bounds t). unfold DayWithinYear in *. lia.
Qed.

Lemma two_digit_year_later y m :
  0 <= y <= 99 -> 0 <= m <= 11 ->
  DayFromYear y + MonthStart y (m + 1)
    <= DayFromYear (1900 + y) + MonthStart (1900 + y) (m + 1).
Proof.
  intros Hy Hm.
  assert (DayFromYear y + 366 <= DayFromYear (1900 + y)) as Hd.
  { unfold DayFromYear. Z.div_mod_to_equations. lia. }
  assert (forall z, 0 <= MonthStart z (m + 1) <= 366) as Hb.
  { intros z. pose proof (DaysInYear_cases z) as [_ Hl].
    unfold MonthStart. split_tests; lia. }
  pose proof (Hb y). pose proof (Hb (1900 + y)). lia.
Qed.

Lemma YearFromDay_unique d y :
  DayFromYear y <= d < DayFromYear (y + 1) -> YearFromDay d = y.
Proof.
  intros [Hl Hu]. pose proof (YearFromDay_largest d y Hl) as Hge.
  destruct (YearFromDay_spec d) as [Hl' _].
  destruct (Z.eq_dec (YearFromDay d) y) as [|Hne]; [assumption|].
  pose proof (DayFromYear_mono (y + 1) (YearFromDay d)). lia.
Qed.

(** [MakeDay] meets its specification: the instant it gives has the year,
    month and date it was made from. *)
Lemma fields_of_MakeDay y m dt tm :
  0 <= m <= 11 ->
  1 <= dt <= MonthStart y (m + 1) - MonthStart y m ->
  0 <= tm < msPerDay ->
  let t := MakeDate (MakeDay y m dt) tm in
  YearFromTime t = y /\ MonthFromTime t = m /\ DateFromTime t = dt.
Proof.
  intros Hm Hdt Htm t.
  assert (Day t = DayFromYear y + MonthStart y m + dt - 1) as Hday.
  { unfold t. rewrite Day_MakeDate by assumption. unfold MakeDay.
    rewrite Z.div_small, Z.mod_small by lia. rewrite Z.add_0_r. lia. }
  pose proof (DaysInYear_cases y) as [Hlen Hl].
  assert (0 <= MonthStart y m /\ MonthStart y (m + 1) <= 365 + InLeapYear y)
    as Hms.
  { month_starts y.
    assert (m = 0 \/ m = 1 \/ m = 2 \/ m = 3 \/ m = 4 \/ m = 5 \/ m = 6 \/
            m = 7 \/ m = 8 \/ m = 9 \/ m = 10 \/ m = 11) as Hc by lia.
    repeat destruct Hc as [->|Hc]; try subst m; lit_succ; lia. }
  assert (YearFromTime t = y) as Hy.
  { unfold YearFromTime. apply YearFromDay_unique.
    rewrite DayFromYear_succ, Hlen. lia. }
  assert (DayWithinYear t = MonthStart y m + dt - 1) as Hw.
  { unfold DayWithinYear. rewrite Hy. lia. }
  assert (MonthFromTime t = m) as Hmo.
  { unfold MonthFromTime. rewrite Hy, Hw. clear Hday Hw Hy.
    month_starts y.
    assert (m = 0 \/ m = 1 \/ m = 2 \/ m = 3 \/ m = 4 \/ m = 5 \/ m = 6 \/
            m = 7 \/ m = 8 \/ m = 9 \/ m = 10 \/ m = 11) as Hc by lia.
    repeat destruct Hc as [->|Hc]; try subst m; lit_succ; lit_succ_hyps;
      repeat match goal with
             | |- context [ ?a <? ?b ] => destruct (Z.ltb_spec a b); try lia
             end; reflexivity. }
  repeat split; try assumption.
  unfold DateFromTime. rewrite Hy, Hmo, Hw. lia.
Qed.

(** ** Properties of the reschedule dates *)

Lemma getNextFriday_shift from :
  exists k, 1 <= k <= 7 /\ getNextFriday from = from + k * msPerDay /\
            (Day from + k + 4) mod 7 = 5 /\ (getDay from = 5 -> k = 7).
Proof.
  unfold getNextFriday, getDay. cbv zeta.
  pose proof (WeekDay_range from) as Hw.
  rewrite Z.rem_mod_nonneg by lia.
  set (r := (5 - WeekDay from + 7) mod 7).
  exists (if r =? 0 then 7 else r).
  rewrite setDate_getDate. subst r. unfold WeekDay in *.
  destruct (Z.eqb_spec ((5 - (Day from + 4) mod 7 + 7) mod 7) 0);
    repeat split; try reflexivity; Z.div_mod_to_equations; lia.
Qed.

Lemma getLastFridayOfMonthForDate_shift year month :
  let yr := if (0 <=? year) && (year <=? 99) then 1900 + year else year in
  exists sub, 0 <= sub <= 6 /\
    getLastFridayOfMonthForDate year month
      = MakeDate (MakeDay yr (month + 1) 0 - sub) 0 /\
    (MakeDay yr (month + 1) 0 - sub + 4) mod 7 = 5.
Proof.
  intros yr. unfold getLastFridayOfMonthForDate, Date_of_ymd, getDay.
  cbv zeta. fold yr.
  set (date := MakeDate (MakeDay yr (month + 1) 0) 0).
  pose proof (WeekDay_range date) as Hw.
  rewrite Z.rem_mod_nonneg by lia.
  exists ((WeekDay date + 2) mod 7).
  replace (getDate date - (WeekDay date + 2) mod 7)
    with (getDate date + - ((WeekDay date + 2) mod 7)) by lia.
  rewrite setDate_getDate.
  assert (Day date = MakeDay yr (month + 1) 0) as Hday.
  { apply Day_MakeDate. unfold msPerDay. lia. }
  unfold WeekDay in *. rewrite Hday in *.
  repeat split.
  - Z.div_mod_to_equations. lia.
  - Z.div_mod_to_equations. lia.
  - subst date. unfold MakeDate. lia.
  - Z.div_mod_to_equations. lia.
Qed.

Lemma next_month_start y m :
  0 <= m <= 11 ->
  0 <= snd (next_month y m) <= 11 /\
  DayFromYear (fst (next_month y m))
    + MonthStart (fst (next_month y m)) (snd (next_month y m))
  = DayFromYear y + MonthStart y (m + 1).
Proof.
  intros Hm. unfold next_month. destruct (Z.eqb_spec m 11) as [->|Hne].
  - cbn [fst snd]. rewrite DayFromYear_succ.
    pose proof (DaysInYear_cases y) as [-> _].
    month_starts y. month_starts (y + 1). change (11 + 1) with 12. lia.
  - cbn [fst snd]. lia.
Qed.

Lemma MakeDay_in_year y m dt :
  0 <= m <= 11 -> MakeDay y m dt = DayFromYear y + MonthStart y m + dt - 1.
Proof.
  intros Hm. unfold MakeDay.
  rewrite Z.div_small, Z.mod_small by lia. rewrite Z.add_0_r. reflexivity.
Qed.

(** Outside the two-digit years, [getLastFridayOfMonthForDate] is the
    last Friday of the month it is asked for. *)
Lemma getLastFridayOfMonthForDate_last_friday y m :
  ~ (0 <= y <= 99) -> 0 <= m <= 11 ->
  last_friday_of y m (getLastFridayOfMonthForDate y m) = true.
Proof.
  intros Hy Hm.
  destruct (getLastFridayOfMonthForDate_shift y m) as (sub & Hsub & E & Hfri).
  assert ((0 <=? y) && (y <=? 99) = false) as Hq.
  { destruct (Z.leb_spec 0 y), (Z.leb_spec y 99); try reflexivity. lia. }
  rewrite Hq in E, Hfri. rewrite E. clear E.
  rewrite MakeDay_next_month in * by assumption.
  pose proof (MonthStart_step y m Hm) as Hlen.
  set (dt := MonthStart y (m + 1) - MonthStart y m - sub).
  assert (DayFromYear y + MonthStart y (m + 1) + 0 - 1 - sub
          = MakeDay y m dt) as Hd.
  { rewrite MakeDay_in_year by assumption. subst dt. lia. }
  rewrite Hd in *.
  destruct (fields_of_MakeDay y m dt 0) as (Fy & Fm & Fd);
    [assumption | subst dt; lia | unfold msPerDay; lia |].
  destruct (next_month_start y m Hm) as (Hm' & Hstart).
  set (y' := fst (next_month y m)) in *.
  set (m' := snd (next_month y m)) in *.
  assert (MakeDate (MakeDay y m dt) 0 + 7 * msPerDay
          = MakeDate (MakeDay y' m' (7 - sub)) 0) as Hweek.
  { unfold MakeDate. rewrite (MakeDay_in_year y' m') by assumption.
    rewrite MakeDay_in_year by assumption. subst dt. lia. }
  pose proof (MonthStart_step y' m' Hm') as Hlen'.
  destruct (fields_of_MakeDay y' m' (7 - sub) 0) as (_ & Fm' & _);
    [assumption | lia | unfold msPerDay; lia |].
  assert (m' <> m) as Hne.
  { subst m'. unfold next_month. destruct (Z.eqb_spec m 11); cbn [snd]; lia. }
  unfold last_friday_of, getFullYear, getMonth, getDay, WeekDay.
  rewrite Hweek, Fy, Fm, Fm', Day_MakeDate by (unfold msPerDay; lia).
  rewrite Hfri, !Z.eqb_refl.
  destruct (Z.eqb_spec m' m); [contradiction | reflexivity].
Qed.

(** X5.  Up to the 28th of a month (and outside the two-digit years),
    [getLastFridayOfMonth] is what its documentation says: the last
    Friday of the month of [from] when that is still ahead, and else the
    last Friday of the month after. *)
Lemma getLastFridayOfMonth_short_dates from :
  100 <= getFullYear from -> getDate from <= 28 ->
  if getLastFridayOfMonthForDate (getFullYear from) (getMonth from) <=? from
  then last_friday_of (fst (next_month (getFullYear from) (getMonth from)))
         (snd (next_month (getFullYear from) (getMonth from)))
         (getLastFridayOfMonth from) = true
  else last_friday_of (getFullYear from) (getMonth from)
         (getLastFridayOfMonth from) = true.
Proof.
  intros Hy Hd. unfold getLastFridayOfMonth. cbv zeta.
  pose proof (MonthFromTime_range from) as Hm.
  destruct (Z.leb_spec (getLastFridayOfMonthForDate (getFullYear from)
                          (getMonth from)) from) as [_|_].
  - unfold getFullYear, getMonth, getDate in *.
    destruct (next_month_start (YearFromTime from) (MonthFromTime from) Hm)
      as (Hm' & Hstart).
    set (y' := fst (next_month (YearFromTime from) (MonthFromTime from))) in *.
    set (m' := snd (next_month (YearFromTime from) (MonthFromTime from))) in *.
    assert (100 <= y') as Hy'.
    { subst y'. unfold next_month.
      destruct (Z.eqb_spec (MonthFromTime from) 11); cbn [fst]; lia. }
    assert (setMonth from (MonthFromTime from + 1)
            = MakeDate (MakeDay y' m' (DateFromTime from))
                (TimeWithinDay from)) as Hnm.
    { unfold setMonth. f_equal.
      rewrite MakeDay_next_month, (MakeDay_in_year y' m') by assumption.
      lia. }
    pose proof (MonthStart_step y' m' Hm') as Hlen.
    pose proof (DateFromTime_range from) as HD.
    destruct (fields_of_MakeDay y' m' (DateFromTime from)
                (TimeWithinDay from)) as (Fy & Fm & _);
      [assumption | lia | apply TimeWithinDay_range |].
    rewrite Hnm, Fy, Fm.
    apply getLastFridayOfMonthForDate_last_friday; [lia | assumption].
  - apply getLastFridayOfMonthForDate_last_friday; [|assumption].
    unfold getFullYear in *. lia.
Qed.

(** The month-end Friday handed out is always in the future. *)
Lemma getLastFridayOfMonth_after from : from < getLastFridayOfMonth from.
Proof.
  unfold getLastFridayOfMonth. cbv zeta.
  destruct (Z.leb_spec (getLastFridayOfMonthForDate (getFullYear from)
                          (getMonth from)) from) as [_|Hgt]; [|lia].
  unfold getFullYear, getMonth.
  set (nm := setMonth from (MonthFromTime from + 1)).
  destruct (getLastFridayOfMonthForDate_shift (YearFromTime nm)
              (MonthFromTime nm)) as (sub & Hsub & -> & _).
  apply Day_lt_later.
  pose proof (MonthFromTime_range from) as Hm.
  pose proof (MonthFromTime_range nm) as Hm'.
  assert (Day nm = MakeDay (YearFromTime from) (MonthFromTime from + 1)
                     (DateFromTime from)) as Hnm.
  { apply Day_MakeDate, TimeWithinDay_range. }
  rewrite MakeDay_next_month in Hnm by assumption.
  rewrite MakeDay_next_month by assumption.
  pose proof (Day_before_next_month nm) as Hlt.
  pose proof (MonthStart_step (YearFromTime from) (MonthFromTime from) Hm).
  pose proof (DateFromTime_range from) as HD.
  pose proof (Day_of_fields from) as Hf. unfold MakeDay in Hf.
  rewrite Z.div_small, Z.mod_small, Z.add_0_r in Hf by lia.
  destruct ((0 <=? YearFromTime nm) && (YearFromTime nm <=? 99)) eqn:Hq.
  - apply andb_prop in Hq as [Hq1 Hq2].
    apply Z.leb_le in Hq1, Hq2.
    pose proof (two_digit_year_later (YearFromTime nm) (MonthFromTime nm)
                  (conj Hq1 Hq2) Hm').
    lia.
  - lia.
Qed.

(** ** How a run of [handle_retry] unfolds *)

Section Unfolding.

Variables (payment : Payment.t) (w : World) (code : Z) (bcid : string)
          (bc : BillingCycle.t).
Hypothesis Hready : retry_ready payment w code bcid bc.

Ltac start :=
  destruct Hready as [Hc Hb Hdb Hf];
  unfold handle_retry; rewrite Hc, Hb;
  unfold bind at 1; unfold BillingCycle_fetch_by_id at 1;
  rewrite Hdb, Hf; cbv zeta;
  fold (days_of bc);
  fold (resolved_action code (days_of bc)
          (Payment.retry_sequence_nb payment)).

Lemma handle_retry_unknown :
  resolved_action code (days_of bc) (Payment.retry_sequence_nb payment)
    = None ->
  handle_retry payment w
    = (fail (unknown_code_error code (getTimeBucket (days_of bc))), w).
Proof. intros Ha. start. rewrite Ha. reflexivity. Qed.

Lemma handle_retry_not_possible :
  resolved_action code (days_of bc) (Payment.retry_sequence_nb payment)
    = Some not_possible ->
  handle_retry payment w
    = (fail (not_possible_error code),
       with_log w (log w ++ [log_entry "handle_retry" error
                               "Retry not possible for this failure code"])).
Proof. intros Ha. start. rewrite Ha. reflexivity. Qed.

Lemma handle_retry_backoff :
  resolved_action code (days_of bc) (Payment.retry_sequence_nb payment)
    = Some backoff ->
  handle_retry payment w
    = (success payment,
       with_log w (log w ++ [log_entry "handle_retry" warn
                               "Backoff retry - no action taken"])).
Proof. intros Ha. start. rewrite Ha. reflexivity. Qed.

Lemma handle_retry_creates a :
  resolved_action code (days_of bc) (Payment.retry_sequence_nb payment)
    = Some a ->
  retries a = true ->
  handle_retry payment w
    = (success (successor payment w code bcid (days_of bc) a),
       with_payments w
         (payments w ++ [successor payment w code bcid (days_of bc) a])).
Proof.
  intros Ha Hr. start. rewrite Ha.
  unfold successor, balance_due.
  destruct a; try discriminate Hr;
    unfold bind, ret, new_Date, CustomerAccount_fetch_by_id, Payment_create;
    rewrite ?Hdb;
    try destruct (accounts w !! Payment.account_id payment);
    unfold retry_input, retry_date, retry_track, retry_routing,
      retry_reason_of;
    rewrite ?Hdb, ?Hc; cbn [fst snd]; reflexivity.
Qed.

End Unfolding.

(** ** The rule table against the code *)

Lemma in_codes_In code l : in_codes code l = true <-> In code l.
Proof.
  unfold in_codes. rewrite existsb_exists. split.
  - intros (x & Hx & He). apply Z.eqb_eq in He. congruence.
  - intros H. exists code. split; [assumption | apply Z.eqb_refl].
Qed.

Lemma rule_table_known code b r :
  rule_table code b = Some r -> In code known_codes.
Proof.
  unfold rule_table.
  repeat match goal with
         | |- context [ in_codes code ?l ] =>
             let H := fresh "H" in
             destruct (in_codes code l) eqn:H;
             [ apply in_codes_In in H; intros _; unfold known_codes;
               simpl in H |- *; intuition lia | ]
         end.
  discriminate.
Qed.

(** Splits [In code known_codes] into its 22 cases. *)
Ltac each_code H :=
  unfold known_codes in H; simpl in H;
  repeat (destruct H as [H | H]; [ symmetry in H; subst | ]);
  [ .. | contradiction ].

(** Every cell of the table is the action the code settles on, with
    alert-and-backoff read as backoff, and the directive the code derives
    from the failure code. *)
Lemma rule_table_sound code days seq a d :
  rule_table code (getTimeBucket days) = Some (a, d) ->
  forced_backoff_triggers (getTimeBucket days) code seq = false ->
  resolved_action code days seq = Some (code_action a) /\
  d = table_directive code (code_action a).
Proof.
  intros Ht Hf. pose proof (rule_table_known _ _ _ Ht) as Hk.
  unfold resolved_action. cbv zeta.
  destruct (getTimeBucket days); each_code Hk;
    vm_compute in Ht; injection Ht as <- <-;
    cbn [forced_backoff_triggers] in Hf;
    try (change (in_codes _ _) with true in Hf; cbn [andb] in Hf;
         apply Z.ltb_ge in Hf;
         assert ((seq >? 12) = false) as -> by lia);
    split; vm_compute; reflexivity.
Qed.

Lemma has_list_to_set (l : list Z) x : has (list_to_set l) x = in_codes x l.
Proof.
  unfold has. apply eq_true_iff_eq.
  rewrite bool_decide_eq_true, elem_of_list_to_set, in_codes_In.
  apply list_elem_of_In.
Qed.

Lemma rule_table_unknown code b :
  rule_table code b = None -> ~ In code known_codes.
Proof.
  unfold rule_table. intros Ht Hk.
  each_code Hk; destruct b; vm_compute in Ht; discriminate.
Qed.

(** A code outside the table has no action in any bucket. *)
Lemma rule_table_none code days seq :
  rule_table code (getTimeBucket days) = None ->
  resolved_action code days seq = None.
Proof.
  intros Ht. apply rule_table_unknown in Ht.
  assert (forall l, incl l known_codes -> has (list_to_set l) code = false)
    as Hno.
  { intros l Hl. rewrite has_list_to_set. apply not_true_is_false.
    rewrite in_codes_In. intros Hin. apply Ht, Hl, Hin. }
  assert (forall l, forallb (fun x => in_codes x known_codes) l = true ->
                    has (list_to_set l) code = false) as Hno'.
  { intros l Hl. apply Hno. intros x Hx.
    rewrite forallb_forall in Hl. apply in_codes_In, Hl, Hx. }
  unfold resolved_action, getRetryAction, NOT_POSSIBLE_CODES,
    CODES_WITH_RETRY_LIMIT_12.
  cbv zeta.
  destruct (getTimeBucket days); cbn [retryStrategy st_instant
    st_scheduled_friday st_scheduled_friday_eom st_backoff is_61_180D andb];
    rewrite !Hno' by reflexivity; reflexivity.
Qed.

(** The codes of [NOT_POSSIBLE_CODES] resolve to [not_possible] whatever
    the bucket and the retry count. *)
Lemma not_possible_resolved code days seq :
  has NOT_POSSIBLE_CODES code = true ->
  resolved_action code days seq = Some not_possible.
Proof.
  unfold NOT_POSSIBLE_CODES. rewrite has_list_to_set, in_codes_In.
  intros H. simpl in H. unfold resolved_action. cbv zeta.
  repeat (destruct H as [H | H]; [ symmetry in H; subst | ]);
    [ .. | contradiction ];
    change (has CODES_WITH_RETRY_LIMIT_12 _) with false;
    rewrite andb_false_r; cbn [andb]; reflexivity.
Qed.

(** The cells tabulated as either backoff resolve to [backoff] whatever
    the retry count. *)
Lemma backoff_cells code days seq a d :
  rule_table code (getTimeBucket days) = Some (a, d) ->
  a = AlertAndBackoff \/ a = Backoff ->
  resolved_action code days seq = Some backoff.
Proof.
  intros Ht Ha.
  assert (forced_backoff_triggers (getTimeBucket days) code seq = false)
    as Hf.
  { pose proof (rule_table_known _ _ _ Ht) as Hk.
    destruct (getTimeBucket days); try reflexivity.
    each_code Hk; vm_compute in Ht; injection Ht as <- <-;
      try reflexivity; destruct Ha; discriminate. }
  destruct (rule_table_sound _ _ _ _ _ Ht Hf) as [-> _].
  destruct Ha; subst a; reflexivity.
Qed.

(** The two conditions written inline in [handle_retry] are the two
    overrides of the specification. *)
Lemma resolved_action_override code days seq :
  resolved_action code days seq
  = if forced_backoff_triggers (getTimeBucket days) code seq
    then Some backoff else getRetryAction code (getTimeBucket days).
Proof.
  unfold resolved_action, forced_backoff_triggers, CODES_WITH_RETRY_LIMIT_12.
  cbv zeta. rewrite has_list_to_set, Z.gtb_ltb.
  destruct (getTimeBucket days); reflexivity.
Qed.

Lemma retry_routing_override payment code days :
  retry_routing payment code days
  = if exclusion_triggers (getTimeBucket days) code
         (Payment.retry_sequence_nb payment)
    then Payment.retry_routing_ctx payment ++ ["exclude_stripe"]
    else Payment.retry_routing_ctx payment.
Proof.
  unfold retry_routing, exclusion_triggers, CODES_WITH_STRIPE_EXCLUSION.
  rewrite has_list_to_set, Z.gtb_ltb.
  destruct (getTimeBucket days); reflexivity.
Qed.

Lemma ex_ready code seq days :
  retry_ready (ex_payment code seq) (ex_world code seq days) code "bc_1"
    (ex_cycle days).
Proof. split; reflexivity. Defined.

(** ** Properties of the time bucket and of the next Friday *)

(** C7, as the code has it: the classifier raises nothing.  Every negative
    number of days overdue is classified, into the bucket of zero,
    [0-30D]. *)
Theorem getTimeBucket_negative d :
  d < 0 -> getTimeBucket d = TB_0_30D /\ getTimeBucket d = getTimeBucket 0.
Proof.
  intros Hd. unfold getTimeBucket.
  destruct (Z.leb_spec d 30); [split; reflexivity | lia].
Qed.

Lemma getTimeBucket_negative_witness :
  -5 < 0 /\ getTimeBucket (-5) = TB_0_30D /\
  getTimeBucket (-5) = getTimeBucket 0.
Proof. split; [lia | apply (getTimeBucket_negative (-5)); lia]. Defined.

(** C7 as stated fails: one day before the due date is not rejected, it
    is classified as [0-30D]. *)
Lemma getTimeBucket_minus_one : getTimeBucket (-1) = TB_0_30D.
Proof. reflexivity. Qed.

(** C8. For every date [from], [getNextFriday from] is a Friday on a
    calendar day other than that of [from], and it is later than [from];
    when [from] is itself a Friday it is the same time of day one week
    later. *)
Theorem getNextFriday_later_friday from :
  getDay (getNextFriday from) = 5 /\
  ~ (getFullYear (getNextFriday from) = getFullYear from /\
     getMonth (getNextFriday from) = getMonth from /\
     getDate (getNextFriday from) = getDate from) /\
  from < getNextFriday from /\
  (getDay from = 5 -> getNextFriday from = from + 7 * msPerDay).
Proof.
  destruct (getNextFriday_shift from) as (k & Hk & -> & Hfri & Hweek).
  repeat split.
  - unfold getDay, WeekDay. rewrite Day_add_days. exact Hfri.
  - unfold getFullYear, getMonth, getDate. intros (Hy & Hm & Hd).
    pose proof (Day_of_fields (from + k * msPerDay)) as H1.
    pose proof (Day_of_fields from) as H2.
    rewrite Hy, Hm, Hd, <- H2, Day_add_days in H1. lia.
  - unfold msPerDay. lia.
  - intros H5. rewrite (Hweek H5). reflexivity.
Qed.

(** The date of a retry is never before the instant it is computed from. *)
Lemma getScheduledDate_after type bal from :
  from < getScheduledDate type bal from.
Proof.
  assert (from < match type with
                 | friday => getNextFriday from
                 | friday_eom => getLastFridayOfMonth from
                 end) as Hfri.
  { destruct type.
    - destruct (getNextFriday_shift from) as (k & Hk & -> & _).
      unfold msPerDay. lia.
    - apply getLastFridayOfMonth_after. }
  unfold getScheduledDate. cbv zeta. destruct bal as [b|]; [|exact Hfri].
  destruct (Z.leb_spec b from); [exact Hfri|].
  destruct (Z.ltb_spec (match type with
                        | friday => getNextFriday from
                        | friday_eom => getLastFridayOfMonth from
                        end) b); [exact Hfri | assumption].
Qed.

Lemma retry_date_not_before a bal from : from <= retry_date a bal from.
Proof.
  destruct a; cbn [retry_date]; try lia;
    apply Z.lt_le_incl, getScheduledDate_after.
Qed.

(** ** Properties of the retry resolution *)

Lemma successor_fields payment w code bcid days a :
  let s := successor payment w code bcid days a in
  Payment.retry_prev_payment_id s = Some (Payment.id payment) /\
  Payment.retry_sequence_nb s = Payment.retry_sequence_nb payment + 1 /\
  Payment.status s = PaymentStatus.SCHEDULED /\
  Payment.track s = Some (retry_track code) /\
  Payment.retry_routing_ctx s = retry_routing payment code days /\
  retry_reason <$> Payment.retry_trace_data s = Some (retry_reason_of a) /\
  Payment.date s
    = retry_date a (match a with
                    | instant => None
                    | _ => balance_due w payment
                    end) (now w).
Proof. repeat split. Qed.

(** C1, as the code has it.  For every failure code and bucket of the
    rule table, when the forced backoff does not trigger, resolving a
    retry yields the tabulated action and directive, except that a cell
    tabulated alert-and-backoff is resolved as a plain backoff: the
    payment is returned as it is and no alert is sent.  (The processor
    exclusion changes neither action nor directive, so it need not be
    excluded.) *)
Theorem resolution_follows_rule_table payment w code bcid bc a d :
  retry_ready payment w code bcid bc ->
  rule_table code (getTimeBucket (days_of bc)) = Some (a, d) ->
  forced_backoff_triggers (getTimeBucket (days_of bc)) code
    (Payment.retry_sequence_nb payment) = false ->
  yields payment w (without_alert a) d.
Proof.
  intros Hr Ht Hf.
  destruct (rule_table_sound _ _ _ _ _ Ht Hf) as [Ha ->].
  unfold yields.
  destruct a; cbn [without_alert code_action table_directive] in *.
  - rewrite (handle_retry_creates _ _ _ _ _ Hr _ Ha eq_refl).
    eexists. repeat split.
  - rewrite (handle_retry_creates _ _ _ _ _ Hr _ Ha eq_refl).
    eexists. repeat split.
  - rewrite (handle_retry_creates _ _ _ _ _ Hr _ Ha eq_refl).
    eexists. repeat split.
  - rewrite (handle_retry_backoff _ _ _ _ _ Hr Ha). repeat split.
  - rewrite (handle_retry_backoff _ _ _ _ _ Hr Ha). repeat split.
  - rewrite (handle_retry_not_possible _ _ _ _ _ Hr Ha).
    split; [|split; reflexivity].
    exists code. split; [apply (ready_code _ _ _ _ _ Hr) | reflexivity].
Qed.

Lemma resolution_follows_rule_table_witness :
  yields (ex_payment 701 3) (ex_world 701 3 45) ScheduleFriday
    (Some TryBankThenCard).
Proof.
  apply (resolution_follows_rule_table (ex_payment 701 3)
           (ex_world 701 3 45) 701 "bc_1" (ex_cycle 45)
           ScheduleFriday (Some TryBankThenCard)).
  - apply ex_ready.
  - reflexivity.
  - reflexivity.
Defined.

(** C1 as stated fails: code 903 at 10 days overdue is tabulated
    alert-and-backoff, and the run does not yield it. *)
Lemma internal_failure_not_alerted :
  rule_table 903 (getTimeBucket 10) = Some (AlertAndBackoff, Some NoChange)
  /\ ~ yields (ex_payment 903 0) (ex_world 903 0 10) AlertAndBackoff
         (Some NoChange).
Proof.
  split; [reflexivity|]. unfold yields.
  rewrite (handle_retry_backoff _ _ _ _ _ (ex_ready 903 0 10) eq_refl).
  intros (_ & _ & Halert & _). apply Halert. reflexivity.
Qed.

(** C3, as the code has it.  For every cell tabulated alert-and-backoff
    (codes 903, 440, 603-607, 777 in buckets 0-30D and 31-60D) and every
    cell tabulated backoff, the resolution returns the failed payment as
    it is, creates no row and sends no alert: all it does is log one
    warning. *)
Theorem backoff_sends_no_alert payment w code bcid bc a d :
  retry_ready payment w code bcid bc ->
  rule_table code (getTimeBucket (days_of bc)) = Some (a, d) ->
  a = AlertAndBackoff \/ a = Backoff ->
  fst (handle_retry payment w) = success payment /\
  payments (snd (handle_retry payment w)) = payments w /\
  alerts (snd (handle_retry payment w)) = alerts w /\
  log (snd (handle_retry payment w))
    = log w ++ [log_entry "handle_retry" warn
                  "Backoff retry - no action taken"].
Proof.
  intros Hr Ht Ha.
  rewrite (handle_retry_backoff _ _ _ _ _ Hr
             (backoff_cells _ _ _ _ _ Ht Ha)).
  repeat split.
Qed.

Lemma backoff_sends_no_alert_witness :
  alerts (snd (handle_retry (ex_payment 777 2) (ex_world 777 2 20))) = [].
Proof.
  apply (backoff_sends_no_alert (ex_payment 777 2) (ex_world 777 2 20)
           777 "bc_1" (ex_cycle 20) AlertAndBackoff (Some NoChange)).
  - apply ex_ready.
  - reflexivity.
  - left. reflexivity.
Defined.

(** C3 as stated fails: code 440 at 45 days overdue is tabulated
    alert-and-backoff; the payment comes back unchanged but the outbox of
    the alert collaborator is as it was. *)
Lemma no_valid_card_not_alerted :
  rule_table 440 (getTimeBucket 45) = Some (AlertAndBackoff, Some NoChange)
  /\ fst (handle_retry (ex_payment 440 1) (ex_world 440 1 45))
     = success (ex_payment 440 1)
  /\ ~ (alerts (snd (handle_retry (ex_payment 440 1) (ex_world 440 1 45)))
        <> alerts (ex_world 440 1 45)).
Proof.
  rewrite (handle_retry_backoff _ _ _ _ _ (ex_ready 440 1 45) eq_refl).
  repeat split. intros H. apply H. reflexivity.
Qed.

Lemma fail_inj {A} (e1 e2 : ApplicationError) :
  @fail A e1 = fail e2 -> e1 = e2.
Proof. intros H. injection H as H. exact H. Qed.

Lemma error_messages_differ code code' b :
  not_possible_error code <> unknown_code_error code' b.
Proof. unfold not_possible_error, unknown_code_error. discriminate. Qed.

(** [yields _ _ NotPossible _] singles out the retry-not-possible error:
    the failure of a code that has no rule does not count as it. *)
Lemma unknown_code_yields_no_NotPossible payment w code bcid bc d :
  retry_ready payment w code bcid bc ->
  resolved_action code (days_of bc) (Payment.retry_sequence_nb payment)
    = None ->
  ~ yields payment w NotPossible d.
Proof.
  intros Hr Ha. unfold yields.
  rewrite (handle_retry_unknown _ _ _ _ _ Hr Ha).
  intros ((c & _ & E) & _). apply fail_inj in E.
  exact (error_messages_differ _ _ _ (eq_sym E)).
Qed.

(** C10. For every code of the not-possible set and every bucket (and
    every retry count), the resolution fails with the retry-not-possible
    error, and the payment table is left as it was.  A code outside the
    rule table fails with the unknown-code error, which is a different
    error. *)
Theorem not_possible_codes_fail payment w code bcid bc :
  retry_ready payment w code bcid bc ->
  has NOT_POSSIBLE_CODES code = true ->
  fst (handle_retry payment w) = fail (not_possible_error code) /\
  payments (snd (handle_retry payment w)) = payments w /\
  forall payment' w' code' bcid' bc',
    retry_ready payment' w' code' bcid' bc' ->
    rule_table code' (getTimeBucket (days_of bc')) = None ->
    fst (handle_retry payment' w')
      = fail (unknown_code_error code' (getTimeBucket (days_of bc'))) /\
    fst (handle_retry payment' w') <> fst (handle_retry payment w).
Proof.
  intros Hr Hnp.
  rewrite (handle_retry_not_possible _ _ _ _ _ Hr
             (not_possible_resolved _ _ _ Hnp)).
  split; [reflexivity | split; [reflexivity |]].
  intros payment' w' code' bcid' bc' Hr' Hnone.
  rewrite (handle_retry_unknown _ _ _ _ _ Hr' (rule_table_none _ _ _ Hnone)).
  split; [reflexivity |].
  cbn [fst]. intros E. apply fail_inj in E.
  symmetry in E. revert E. apply error_messages_differ.
Qed.

Lemma not_possible_codes_fail_witness :
  fst (handle_retry (ex_payment 444 0) (ex_world 444 0 200))
    = fail (not_possible_error 444) /\
  payments (snd (handle_retry (ex_payment 444 0) (ex_world 444 0 200)))
    = [ex_payment 444 0] /\
  fst (handle_retry (ex_payment 999 0) (ex_world 999 0 10))
    = fail (unknown_code_error 999 TB_0_30D).
Proof.
  pose proof (not_possible_codes_fail (ex_payment 444 0)
                (ex_world 444 0 200) 444 "bc_1" (ex_cycle 200)
                (ex_ready 444 0 200) eq_refl) as (H1 & H2 & H3).
  split; [exact H1 | split; [exact H2 |]].
  apply (H3 (ex_payment 999 0) (ex_world 999 0 10) 999 "bc_1" (ex_cycle 10)
            (ex_ready 999 0 10) eq_refl).
Defined.

(** C4. For every resolution that retries (instant, Friday, month-end
    Friday), the run creates a successor row, returns it, and that row
    refers to the failed payment, has its retry sequence number plus one,
    is SCHEDULED, and is dated at or after the clock reading its date was
    computed from. *)
Theorem successor_lineage payment w code bcid bc a :
  retry_ready payment w code bcid bc ->
  resolved_action code (days_of bc) (Payment.retry_sequence_nb payment)
    = Some a ->
  retries a = true ->
  exists s,
    handle_retry payment w
      = (success s, with_payments w (payments w ++ [s])) /\
    Payment.retry_prev_payment_id s = Some (Payment.id payment) /\
    Payment.retry_sequence_nb s = Payment.retry_sequence_nb payment + 1 /\
    Payment.status s = PaymentStatus.SCHEDULED /\
    now w <= Payment.date s.
Proof.
  intros Hr Ha Hret.
  exists (successor payment w code bcid (days_of bc) a).
  split; [exact (handle_retry_creates _ _ _ _ _ Hr _ Ha Hret)|].
  destruct (successor_fields payment w code bcid (days_of bc) a)
    as (Hp & Hs & Hst & _ & _ & _ & Hd).
  rewrite Hd. repeat split; try assumption.
  apply retry_date_not_before.
Qed.

Lemma successor_lineage_witness :
  exists s,
    handle_retry (ex_payment 601 4) (ex_world 601 4 12)
      = (success s,
         with_payments (ex_world 601 4 12)
           (payments (ex_world 601 4 12) ++ [s])) /\
    Payment.retry_prev_payment_id s = Some "pay_1" /\
    Payment.retry_sequence_nb s = 4 + 1 /\
    Payment.status s = PaymentStatus.SCHEDULED /\
    ex_now <= Payment.date s.
Proof.
  apply (successor_lineage (ex_payment 601 4) (ex_world 601 4 12) 601
           "bc_1" (ex_cycle 12) scheduled_friday_eom).
  - apply ex_ready.
  - reflexivity.
  - reflexivity.
Defined.

Ltac each_in H :=
  simpl in H;
  repeat (destruct H as [H | H]; [ symmetry in H; subst | ]);
  [ .. | contradiction ].

(** C5. In bucket 31-60D, for a code among 904, 441, 601, 701, 706, the
    action is the one of the rule table whatever the retry count, and the
    successor is created; with a retry count above 8 its routing context
    is the failed payment's followed by the Stripe exclusion, with a
    retry count of 8 (or less) it is the failed payment's, nothing
    added. *)
Theorem stripe_exclusion_above_8 payment w code bcid bc :
  retry_ready payment w code bcid bc ->
  getTimeBucket (days_of bc) = TB_31_60D ->
  In code [904; 441; 601; 701; 706] ->
  exists a s,
    getRetryAction code TB_31_60D = Some a /\
    resolved_action code (days_of bc) (Payment.retry_sequence_nb payment)
      = Some a /\
    handle_retry payment w
      = (success s, with_payments w (payments w ++ [s])) /\
    Payment.date s
      = retry_date a (match a with
                      | instant => None
                      | _ => balance_due w payment
                      end) (now w) /\
    (8 < Payment.retry_sequence_nb payment ->
       Payment.retry_routing_ctx s
         = Payment.retry_routing_ctx payment ++ ["exclude_stripe"]) /\
    (Payment.retry_sequence_nb payment <= 8 ->
       Payment.retry_routing_ctx s = Payment.retry_routing_ctx payment).
Proof.
  intros Hr Hb Hin.
  assert (exists a, getRetryAction code TB_31_60D = Some a /\
                    retries a = true /\
                    has CODES_WITH_STRIPE_EXCLUSION code = true)
    as (a & Hbase & Hret & Hset).
  { each_in Hin; eexists; repeat split. }
  assert (resolved_action code (days_of bc)
            (Payment.retry_sequence_nb payment) = Some a) as Ha.
  { unfold resolved_action. rewrite Hb. exact Hbase. }
  exists a, (successor payment w code bcid (days_of bc) a).
  destruct (successor_fields payment w code bcid (days_of bc) a)
    as (_ & _ & _ & _ & Hctx & _ & Hd).
  rewrite Hctx. unfold retry_routing. rewrite Hb, Hset. cbn [is_31_60D andb].
  repeat split; try assumption.
  - exact (handle_retry_creates _ _ _ _ _ Hr _ Ha Hret).
  - intros Hseq. destruct (Z.gtb_spec (Payment.retry_sequence_nb payment) 8);
      [reflexivity | lia].
  - intros Hseq. destruct (Z.gtb_spec (Payment.retry_sequence_nb payment) 8);
      [lia | reflexivity].
Qed.

(** C6. In bucket 61-180D, for a code among 441, 701, 706: with a retry
    count above 12 the resolution is a backoff, the failed payment comes
    back as it is and no row is created; with a retry count of 12 (or
    less) the month-end Friday retry of the rule table stands and its
    successor is created, with no routing exclusion added. *)
Theorem forced_backoff_above_12 payment w code bcid bc :
  retry_ready payment w code bcid bc ->
  getTimeBucket (days_of bc) = TB_61_180D ->
  In code [441; 701; 706] ->
  (12 < Payment.retry_sequence_nb payment ->
     resolved_action code (days_of bc) (Payment.retry_sequence_nb payment)
       = Some backoff /\
     fst (handle_retry payment w) = success payment /\
     payments (snd (handle_retry payment w)) = payments w) /\
  (Payment.retry_sequence_nb payment <= 12 ->
     resolved_action code (days_of bc) (Payment.retry_sequence_nb payment)
       = Some scheduled_friday_eom /\
     exists s,
       handle_retry payment w
         = (success s, with_payments w (payments w ++ [s])) /\
       Payment.date s
         = getScheduledDate friday_eom (balance_due w payment) (now w) /\
       retry_reason <$> Payment.retry_trace_data s
         = Some "scheduled_friday_eom_or_balance_due" /\
       Payment.retry_routing_ctx s = Payment.retry_routing_ctx payment).
Proof.
  intros Hr Hb Hin.
  assert (has CODES_WITH_RETRY_LIMIT_12 code = true /\
          getRetryAction code TB_61_180D = Some scheduled_friday_eom)
    as (Hset & Hbase).
  { each_in Hin; split; reflexivity. }
  split; intros Hseq.
  - assert (resolved_action code (days_of bc)
              (Payment.retry_sequence_nb payment) = Some backoff) as Ha.
    { unfold resolved_action. rewrite Hb, Hset. cbn [is_61_180D andb].
      destruct (Z.gtb_spec (Payment.retry_sequence_nb payment) 12);
        [reflexivity | lia]. }
    rewrite (handle_retry_backoff _ _ _ _ _ Hr Ha). repeat split.
    exact Ha.
  - assert (resolved_action code (days_of bc)
              (Payment.retry_sequence_nb payment)
            = Some scheduled_friday_eom) as Ha.
    { unfold resolved_action. rewrite Hb, Hset. cbn [is_61_180D andb].
      destruct (Z.gtb_spec (Payment.retry_sequence_nb payment) 12);
        [lia | exact Hbase]. }
    split; [exact Ha|].
    exists (successor payment w code bcid (days_of bc) scheduled_friday_eom).
    destruct (successor_fields payment w code bcid (days_of bc)
                scheduled_friday_eom) as (_ & _ & _ & _ & Hctx & Hre & Hd).
    rewrite Hctx, Hd. unfold retry_routing. rewrite Hb.
    repeat split.
    exact (handle_retry_creates _ _ _ _ _ Hr _ Ha eq_refl).
Qed.

Lemma stripe_exclusion_above_8_witness :
  (exists s,
     fst (handle_retry (ex_payment 701 9) (ex_world 701 9 45)) = success s /\
     Payment.retry_routing_ctx s = ["exclude_stripe"]) /\
  (exists s,
     fst (handle_retry (ex_payment 701 8) (ex_world 701 8 45)) = success s /\
     Payment.retry_routing_ctx s = []).
Proof.
  split.
  - destruct (stripe_exclusion_above_8 (ex_payment 701 9)
                (ex_world 701 9 45) 701 "bc_1" (ex_cycle 45)
                (ex_ready 701 9 45) eq_refl)
      as (a & s & _ & _ & Hrun & _ & Habove & _).
    { simpl. tauto. }
    exists s. rewrite Hrun. split; [reflexivity|].
    apply Habove. reflexivity.
  - destruct (stripe_exclusion_above_8 (ex_payment 701 8)
                (ex_world 701 8 45) 701 "bc_1" (ex_cycle 45)
                (ex_ready 701 8 45) eq_refl)
      as (a & s & _ & _ & Hrun & _ & _ & Hupto).
    { simpl. tauto. }
    exists s. rewrite Hrun. split; [reflexivity|].
    apply Hupto. discriminate.
Defined.

Lemma forced_backoff_above_12_witness :
  fst (handle_retry (ex_payment 441 13) (ex_world 441 13 90))
    = success (ex_payment 441 13) /\
  payments (snd (handle_retry (ex_payment 441 13) (ex_world 441 13 90)))
    = [ex_payment 441 13] /\
  resolved_action 441 90 12 = Some scheduled_friday_eom.
Proof.
  destruct (forced_backoff_above_12 (ex_payment 441 13)
              (ex_world 441 13 90) 441 "bc_1" (ex_cycle 90)
              (ex_ready 441 13 90) eq_refl) as (Habove & _).
  { simpl. tauto. }
  destruct (forced_backoff_above_12 (ex_payment 441 12)
              (ex_world 441 12 90) 441 "bc_1" (ex_cycle 90)
              (ex_ready 441 12 90) eq_refl) as (_ & Hupto).
  { simpl. tauto. }
  destruct (Habove eq_refl) as (_ & H1 & H2).
  destruct Hupto as (H3 & _); [discriminate|].
  split; [exact H1 | split; [exact H2 | exact H3]].
Defined.

(** ** The month-end Friday at the end of a long month *)

(** C9 fails on the code.  On Friday 31 January 2025 at 12:00 UTC the
    last Friday of the month (that day, 00:00) is not after [from], so the
    last Friday of February, the 28th, is due; [setMonth] carries 31
    February over into March and the function answers Friday 28 March. *)
Theorem getLastFridayOfMonth_skips_february :
  (getFullYear ex_now, getMonth ex_now, getDate ex_now, getDay ex_now)
    = (2025, 0, 31, 5) /\
  getLastFridayOfMonthForDate 2025 0 <= ex_now /\
  last_friday_of 2025 1 (Date_of_ymd 2025 1 28) = true /\
  getLastFridayOfMonth ex_now = Date_of_ymd 2025 2 28 /\
  last_friday_of 2025 1 (getLastFridayOfMonth ex_now) = false /\
  last_friday_of 2025 2 (getLastFridayOfMonth ex_now) = true.
Proof.
  repeat split; try (vm_compute; reflexivity).
  vm_compute. discriminate.
Qed.

(** ** Processing an already failed payment again *)

(** X16.  A resolution that retries does so again when run again: the second
    run finds the payment as it was and appends a second successor. *)
Lemma handle_retry_creates_twice payment w code bcid bc a :
  retry_ready payment w code bcid bc ->
  resolved_action code (days_of bc) (Payment.retry_sequence_nb payment)
    = Some a ->
  retries a = true ->
  exists s1 s2,
    payments (snd (handle_retry payment (snd (handle_retry payment w))))
      = payments w ++ [s1; s2] /\
    is_successor_of payment s1 = true /\
    is_successor_of payment s2 = true.
Proof.
  intros Hr Ha Hret.
  rewrite (handle_retry_creates _ _ _ _ _ Hr _ Ha Hret). cbn [snd].
  set (w1 := with_payments w _).
  assert (retry_ready payment w1 code bcid bc) as Hr1.
  { destruct Hr. split; assumption. }
  rewrite (handle_retry_creates _ _ _ _ _ Hr1 _ Ha Hret).
  eexists _, _. cbn [snd payments with_payments w1].
  rewrite <- app_assoc. split; [reflexivity|].
  unfold is_successor_of, successor, Payment_of_input, retry_input.
  cbn [Payment.retry_prev_payment_id in_retry_prev_payment_id].
  rewrite String.eqb_refl. split; reflexivity.
Qed.

Lemma with_payments_same w : with_payments w (payments w) = w.
Proof. destruct w. reflexivity. Qed.

Lemma with_log_same w : with_log w (log w) = w.
Proof. destruct w. reflexivity. Qed.

(** [handle_retry] reads nothing from the log and writes only to the log
    and to the payment table. *)
Lemma handle_retry_frame payment w :
  exists r ps, forall l, exists l',
    handle_retry payment (with_log w l)
      = (r, with_log (with_payments w ps) l').
Proof.
  destruct (Payment.code payment) as [code|] eqn:Hc.
  2: { eexists _, (payments w). intros l. exists l.
       unfold handle_retry. rewrite Hc. reflexivity. }
  destruct (truthy (Payment.billing_cycle_id payment)) as [bcid|] eqn:Hb.
  2: { eexists _, (payments w). intros l. exists l.
       unfold handle_retry. rewrite Hc, Hb. reflexivity. }
  destruct (db_online w) eqn:Hdb.
  2: { eexists _, (payments w). intros l. exists l.
       unfold handle_retry. rewrite Hc, Hb.
       unfold bind, BillingCycle_fetch_by_id. cbn [db_online with_log].
       rewrite Hdb. reflexivity. }
  destruct (billing_cycles w !! bcid) as [bc|] eqn:Hf.
  2: { eexists _, (payments w). intros l. exists l.
       unfold handle_retry. rewrite Hc, Hb.
       unfold bind, BillingCycle_fetch_by_id.
       cbn [db_online billing_cycles with_log].
       rewrite Hdb, Hf. reflexivity. }
  assert (forall l, retry_ready payment (with_log w l) code bcid bc) as Hr.
  { intros l. split; assumption. }
  destruct (resolved_action code (days_of bc)
              (Payment.retry_sequence_nb payment)) as [a|] eqn:Ha.
  2: { eexists _, (payments w). intros l. exists l.
       rewrite (handle_retry_unknown _ _ _ _ _ (Hr l) Ha). reflexivity. }
  destruct (retries a) eqn:Hret.
  - exists (success (successor payment w code bcid (days_of bc) a)),
      (payments w ++ [successor payment w code bcid (days_of bc) a]).
    intros l. exists l.
    rewrite (handle_retry_creates _ _ _ _ _ (Hr l) _ Ha Hret). reflexivity.
  - destruct a; try discriminate Hret.
    + exists (success payment), (payments w). intros l. eexists.
      rewrite (handle_retry_backoff _ _ _ _ _ (Hr l) Ha). reflexivity.
    + eexists _, (payments w). intros l. eexists.
      rewrite (handle_retry_not_possible _ _ _ _ _ (Hr l) Ha). reflexivity.
Qed.

Section Reprocessing.

Variable is_hard_decline_code : Z -> bool.
Variable get_fail_reason_from_code : Z -> string.

Local Abbreviation handle_failed :=
  (handle_failed_pull_funds is_hard_decline_code get_fail_reason_from_code).
Local Abbreviation failure_branch :=
  (pull_funds_failed is_hard_decline_code get_fail_reason_from_code).

(** On a payment that is already FAILED the failure handler writes to the
    log only, and returns the payment. *)
Lemma handle_failed_already_failed payment code ref_date w :
  Payment.status payment = PaymentStatus.FAILED ->
  exists l, handle_failed payment code ref_date w
            = (success payment, with_log w l).
Proof.
  intros Hs. unfold handle_failed_pull_funds.
  rewrite Hs. eexists. destruct ref_date; reflexivity.
Qed.

Lemma failure_branch_already_failed payment code ref_date w :
  Payment.status payment = PaymentStatus.FAILED ->
  exists l,
    failure_branch payment code ref_date w
    = (let (r, w') := handle_retry payment (with_log w l) in
       (success (if ok r then default payment (safe_unwrap r)
                 else payment), w')).
Proof.
  intros Hs. unfold pull_funds_failed.
  destruct ref_date as [d|].
  - destruct (handle_failed_already_failed payment code (Some d) w Hs)
      as (l & Hl).
    exists l.
    unfold bind at 1. unfold ret at 1. unfold bind at 1.
    rewrite Hl. reflexivity.
  - destruct (handle_failed_already_failed payment code (Some (now w)) w Hs)
      as (l & Hl).
    exists l.
    unfold bind at 1. unfold new_Date at 1. unfold bind at 1.
    rewrite Hl. reflexivity.
Qed.

(** C2, as the code has it.  For every payment already FAILED: the
    failure handler returns the payment and touches no table; and when
    the retry resolution ends without a successor (backoff, retry not
    possible, or an error), invoking the resolver, or the whole failure
    branch of [pull_funds], a second time returns the same outcome and
    still creates no row. *)
Theorem reprocessing_without_successor payment code ref_date w :
  Payment.status payment = PaymentStatus.FAILED ->
  (exists l, handle_failed payment code ref_date w
             = (success payment, with_log w l)) /\
  (forall r1 w1,
     handle_retry payment w = (r1, w1) -> payments w1 = payments w ->
     fst (handle_retry payment w1) = r1 /\
     payments (snd (handle_retry payment w1)) = payments w) /\
  (forall r1 w1,
     failure_branch payment code ref_date w = (r1, w1) ->
     payments w1 = payments w ->
     fst (failure_branch payment code ref_date w1) = r1 /\
     payments (snd (failure_branch payment code ref_date w1)) = payments w).
Proof.
  intros Hs.
  destruct (handle_retry_frame payment w) as (r & ps & Hframe).
  split; [apply handle_failed_already_failed; assumption|].
  split.
  - intros r1 w1 Hrun Hsame.
    destruct (Hframe (log w)) as (l1 & H1).
    rewrite with_log_same, Hrun in H1. injection H1 as -> ->.
    cbn [payments with_log with_payments] in Hsame. subst ps.
    rewrite with_payments_same.
    destruct (Hframe l1) as (l2 & H2).
    rewrite with_payments_same in H2.
    replace (with_log (with_log w l1) l1) with (with_log w l1)
      by reflexivity.
    rewrite H2. split; reflexivity.
  - intros r1 w1 Hrun Hsame.
    destruct (failure_branch_already_failed payment code ref_date w Hs)
      as (l0 & H0).
    destruct (Hframe l0) as (l1 & H1).
    rewrite H0, H1 in Hrun. injection Hrun as <- <-.
    cbn [payments with_log with_payments] in Hsame. subst ps.
    rewrite with_payments_same.
    destruct (failure_branch_already_failed payment code ref_date
                (with_log w l1) Hs) as (l2 & H2).
    destruct (Hframe l2) as (l3 & H3).
    rewrite with_payments_same in H3.
    replace (with_log (with_log w l1) l2) with (with_log w l2) in H2
      by reflexivity.
    rewrite H2, H3. split; reflexivity.
Qed.

End Reprocessing.

Lemma reprocessing_without_successor_witness :
  fst (handle_retry (ex_payment 903 0)
         (snd (handle_retry (ex_payment 903 0) (ex_world 903 0 10))))
    = success (ex_payment 903 0) /\
  payments (snd (handle_retry (ex_payment 903 0)
                   (snd (handle_retry (ex_payment 903 0)
                           (ex_world 903 0 10)))))
    = [ex_payment 903 0].
Proof.
  destruct (reprocessing_without_successor (fun _ => false)
              (fun _ => "Payment failed") (ex_payment 903 0) 903 None
              (ex_world 903 0 10) eq_refl) as (_ & Hretry & _).
  apply (Hretry (success (ex_payment 903 0))
           (snd (handle_retry (ex_payment 903 0) (ex_world 903 0 10)))).
  - vm_compute. reflexivity.
  - vm_compute. reflexivity.
Defined.

(** C2 as stated fails: an already FAILED payment with code 904, ten days
    overdue, gets a successor each time the failure branch of
    [pull_funds] runs on it; the second run returns another row than the
    first. *)
Lemma reprocessing_duplicates_successor :
  let payment := ex_payment 904 0 in
  let run := pull_funds_failed (fun _ => false) (fun _ => "Payment failed")
               payment 904 None in
  let w1 := snd (run (ex_world 904 0 10)) in
  let w2 := snd (run w1) in
  Payment.status payment = PaymentStatus.FAILED /\
  length (successors_of payment (payments w1)) = 1%nat /\
  length (successors_of payment (payments w2)) = 2%nat /\
  fst (run w1) <> fst (run (ex_world 904 0 10)).
Proof.
  cbv zeta. repeat split; try (vm_compute; reflexivity).
  intros H. vm_compute in H. discriminate H.
Qed.

(** ** The days overdue the failure handler stores *)

Lemma cycles_kept_refl w w' :
  billing_cycles w' = billing_cycles w -> cycles_kept_or_clamped w w'.
Proof. intros E id bc' H. left. rewrite <- E. exact H. Qed.

Lemma cycles_kept_trans w1 w2 w3 :
  cycles_kept_or_clamped w1 w2 -> cycles_kept_or_clamped w2 w3 ->
  cycles_kept_or_clamped w1 w3.
Proof.
  intros H12 H23 id bc' H. destruct (H23 id bc' H) as [H2|H2].
  - exact (H12 id bc' H2).
  - right. exact H2.
Qed.

Lemma establishes_ret {A} (a : A) : establishes cycles_kept_or_clamped (ret a).
Proof. intros w. apply cycles_kept_refl. reflexivity. Qed.

Lemma establishes_bind {A B} (c : M A) (k : A -> M B) :
  establishes cycles_kept_or_clamped c ->
  (forall a, establishes cycles_kept_or_clamped (k a)) ->
  establishes cycles_kept_or_clamped (bind c k).
Proof.
  intros Hc Hk w. unfold bind. specialize (Hc w).
  destruct (c w) as [a w1]. cbn [snd] in Hc.
  exact (cycles_kept_trans _ _ _ Hc (Hk a w1)).
Qed.

(** An operation that leaves the billing cycles alone. *)
Ltac cycles_untouched :=
  let w := fresh "w" in
  intros w; apply cycles_kept_refl;
  repeat match goal with
         | |- context [ match ?x with _ => _ end ] => destruct x
         | |- context [ if ?x then _ else _ ] => destruct x
         end; reflexivity.

Lemma establishes_logger name lv msg :
  establishes cycles_kept_or_clamped (logger name lv msg).
Proof. unfold logger. cycles_untouched. Qed.

Lemma establishes_new_Date : establishes cycles_kept_or_clamped new_Date.
Proof. unfold new_Date. cycles_untouched. Qed.

Lemma establishes_Payment_update id input :
  establishes cycles_kept_or_clamped (Payment_update id input).
Proof. unfold Payment_update. cycles_untouched. Qed.

Lemma establishes_PaymentMethod_update id st mm :
  establishes cycles_kept_or_clamped (PaymentMethod_update id st mm).
Proof. unfold PaymentMethod_update. cycles_untouched. Qed.

Lemma establishes_CustomerAccount_fetch id :
  establishes cycles_kept_or_clamped (CustomerAccount_fetch_by_id id).
Proof. unfold CustomerAccount_fetch_by_id. cycles_untouched. Qed.

Lemma establishes_CustomerAccount_update id amount date :
  establishes cycles_kept_or_clamped (CustomerAccount_update id amount date).
Proof. unfold CustomerAccount_update. cycles_untouched. Qed.

Lemma establishes_BillingCycle_fetch id :
  establishes cycles_kept_or_clamped (BillingCycle_fetch_by_id id).
Proof. unfold BillingCycle_fetch_by_id. cycles_untouched. Qed.

Lemma establishes_BillingCycle_update id days :
  0 <= days ->
  establishes cycles_kept_or_clamped (BillingCycle_update id days).
Proof.
  intros Hd w. unfold BillingCycle_update.
  destruct (if db_online w then billing_cycles w !! id else None) as [bc|];
    [| apply cycles_kept_refl; reflexivity].
  intros id' bc' H. cbn [snd billing_cycles with_billing_cycles] in H.
  destruct (decide (id = id')) as [->|Hne].
  - rewrite lookup_insert_eq in H. injection H as <-.
    right. exists days. split; [reflexivity | assumption].
  - rewrite lookup_insert_ne in H by assumption. left. exact H.
Qed.

Section Clamp.

Variable is_hard_decline_code : Z -> bool.
Variable get_fail_reason_from_code : Z -> string.

(** X27.  Whatever the reference date, the failure handler never stores a
    negative number of days overdue: the difference in days is clamped at
    zero before it is written. *)
Lemma handle_failed_days_overdue_clamped payment code ref_date :
  establishes cycles_kept_or_clamped
    (handle_failed_pull_funds is_hard_decline_code
       get_fail_reason_from_code payment code ref_date).
Proof.
  unfold handle_failed_pull_funds.
  repeat first
    [ apply establishes_ret
    | apply establishes_logger
    | apply establishes_new_Date
    | apply establishes_Payment_update
    | apply establishes_PaymentMethod_update
    | apply establishes_CustomerAccount_fetch
    | apply establishes_CustomerAccount_update
    | apply establishes_BillingCycle_fetch
    | apply establishes_BillingCycle_update; apply Z.le_max_l
    | apply establishes_bind; [| intros ? ]
    | match goal with
      | |- establishes _ (match ?x with _ => _ end) => destruct x
      | |- establishes _ (if ?x then _ else _) => destruct x
      end ].
Qed.

End Clamp.

(** * Further properties of the code *)

(** ** Reschedule dates *)

(** X1.  [getNextFriday] gives the nearest Friday after the day of [from]: its
    result is a Friday; it moves [from] forward by one to seven whole
    days, keeps the time of day, and no day in between is a Friday. *)
Theorem getNextFriday_nearest from :
  getDay (getNextFriday from) = 5 /\
  exists k,
    1 <= k <= 7 /\
    getNextFriday from = from + k * msPerDay /\
    TimeWithinDay (getNextFriday from) = TimeWithinDay from /\
    forall j, 1 <= j < k -> getDay (from + j * msPerDay) <> 5.
Proof.
  destruct (getNextFriday_shift from) as (k & Hk & E & Hfri & _).
  rewrite E. split.
  - unfold getDay, WeekDay. rewrite Day_add_days. exact Hfri.
  - exists k. repeat split; try lia.
    + unfold TimeWithinDay, msPerDay. Z.div_mod_to_equations. lia.
    + intros j Hj. unfold getDay, WeekDay. rewrite Day_add_days.
      intros Hj5. Z.div_mod_to_equations. lia.
Qed.

(** X2.  For a month 0..11 of a year outside 0..99,
    [getLastFridayOfMonthForDate] is the last Friday of that month, at
    midnight. *)
Theorem getLastFridayOfMonthForDate_correct y m :
  ~ (0 <= y <= 99) -> 0 <= m <= 11 ->
  last_friday_of y m (getLastFridayOfMonthForDate y m) = true /\
  TimeWithinDay (getLastFridayOfMonthForDate y m) = 0.
Proof.
  intros Hy Hm.
  split; [apply getLastFridayOfMonthForDate_last_friday; assumption|].
  destruct (getLastFridayOfMonthForDate_shift y m) as (sub & _ & -> & _).
  unfold TimeWithinDay, MakeDate, msPerDay. Z.div_mod_to_equations. lia.
Qed.

Lemma getLastFridayOfMonthForDate_correct_witness :
  last_friday_of 2024 1 (getLastFridayOfMonthForDate 2024 1) = true /\
  TimeWithinDay (getLastFridayOfMonthForDate 2024 1) = 0.
Proof. apply (getLastFridayOfMonthForDate_correct 2024 1); lia. Defined.

(** X3.  Whatever [from], [getLastFridayOfMonth] is a Friday, at midnight,
    strictly after [from]. *)
Theorem getLastFridayOfMonth_friday_ahead from :
  getDay (getLastFridayOfMonth from) = 5 /\
  TimeWithinDay (getLastFridayOfMonth from) = 0 /\
  from < getLastFridayOfMonth from.
Proof.
  split; [|split; [|apply getLastFridayOfMonth_after]].
  - unfold getLastFridayOfMonth. cbv zeta.
    match goal with
    | |- context [ if ?c then getLastFridayOfMonthForDate ?y1 ?m1
                   else getLastFridayOfMonthForDate ?y2 ?m2 ] =>
        destruct c;
        [ destruct (getLastFridayOfMonthForDate_shift y1 m1)
            as (sub & _ & -> & Hfri)
        | destruct (getLastFridayOfMonthForDate_shift y2 m2)
            as (sub & _ & -> & Hfri) ]
    end;
      unfold getDay, WeekDay;
      rewrite Day_MakeDate by (unfold msPerDay; lia); exact Hfri.
  - unfold getLastFridayOfMonth. cbv zeta.
    match goal with
    | |- context [ if ?c then getLastFridayOfMonthForDate ?y1 ?m1
                   else getLastFridayOfMonthForDate ?y2 ?m2 ] =>
        destruct c;
        [ destruct (getLastFridayOfMonthForDate_shift y1 m1)
            as (sub & _ & -> & _)
        | destruct (getLastFridayOfMonthForDate_shift y2 m2)
            as (sub & _ & -> & _) ]
    end;
      unfold TimeWithinDay, MakeDate, msPerDay;
      Z.div_mod_to_equations; lia.
Qed.

(** X6.  The earliest-of rule of [getScheduledDate]: the date is after [from]
    and never later than the Friday; it is the Friday when there is no
    balance due date or when that date is not after [from], and else the
    earlier of the two. *)
Theorem getScheduledDate_earliest type bal from :
  let fridayDate := match type with
                    | friday => getNextFriday from
                    | friday_eom => getLastFridayOfMonth from
                    end in
  from < getScheduledDate type bal from /\
  getScheduledDate type bal from <= fridayDate /\
  match bal with
  | None => getScheduledDate type bal from = fridayDate
  | Some b =>
      (b <= from -> getScheduledDate type bal from = fridayDate) /\
      (from < b -> getScheduledDate type bal from = Z.min fridayDate b)
  end.
Proof.
  intros fridayDate.
  split; [apply getScheduledDate_after|].
  unfold getScheduledDate. cbv zeta. fold fridayDate.
  destruct bal as [b|]; [|split; [lia | reflexivity]].
  destruct (Z.leb_spec b from); destruct (Z.ltb_spec fridayDate b);
    repeat split; intros; lia.
Qed.

Lemma getLastFridayOfMonthForDate_day y m :
  100 <= y -> 0 <= m <= 11 ->
  Day (getLastFridayOfMonthForDate y m)
    <= DayFromYear y + MonthStart y (m + 1) - 1.
Proof.
  intros Hy Hm.
  destruct (getLastFridayOfMonthForDate_shift y m) as (sub & Hsub & E & _).
  assert ((0 <=? y) && (y <=? 99) = false) as Hq.
  { apply andb_false_intro2, Z.leb_gt. lia. }
  rewrite Hq in E. rewrite E.
  rewrite Day_MakeDate by (unfold msPerDay; lia).
  rewrite MakeDay_next_month by assumption. lia.
Qed.

(** [setMonth] to the next month moves the day number by the length of
    the current month. *)
Lemma Day_setMonth_next from :
  Day (setMonth from (MonthFromTime from + 1))
  = Day from + (MonthStart (YearFromTime from) (MonthFromTime from + 1)
                - MonthStart (YearFromTime from) (MonthFromTime from)).
Proof.
  pose proof (MonthFromTime_range from) as Hm.
  unfold setMonth. rewrite Day_MakeDate by apply TimeWithinDay_range.
  rewrite MakeDay_next_month by assumption.
  pose proof (Day_of_fields from) as Hf.
  rewrite MakeDay_in_year in Hf by assumption. lia.
Qed.

(** X4.  From the year 100 on, the month-end Friday is at most 61 days after
    the day of [from]. *)
Theorem getLastFridayOfMonth_within_61_days from :
  100 <= getFullYear from ->
  Day (getLastFridayOfMonth from) <= Day from + 61.
Proof.
  intros Hy. unfold getFullYear in Hy.
  pose proof (MonthFromTime_range from) as Hm.
  pose proof (MonthFromTime_bounds from) as Hin.
  pose proof (MonthStart_step (YearFromTime from) (MonthFromTime from) Hm)
    as Hlen.
  unfold DayWithinYear in Hin.
  unfold getLastFridayOfMonth. cbv zeta.
  destruct (Z.leb_spec (getLastFridayOfMonthForDate (getFullYear from)
                          (getMonth from)) from) as [_|_];
    unfold getFullYear, getMonth.
  - pose proof (Day_setMonth_next from) as Hnm.
    pose proof (DayWithinYear_range from) as Hw.
    unfold DayWithinYear in Hw.
    generalize dependent (setMonth from (MonthFromTime from + 1)).
    intros nm Hnm.
    assert (YearFromTime from <= YearFromTime nm) as Hy'.
    { apply YearFromDay_largest. lia. }
    pose proof (MonthFromTime_range nm) as Hm'.
    pose proof (MonthFromTime_bounds nm) as Hin'.
    pose proof (MonthStart_step (YearFromTime nm) (MonthFromTime nm) Hm')
      as Hlen'.
    unfold DayWithinYear in Hin'.
    pose proof (getLastFridayOfMonthForDate_day (YearFromTime nm)
                  (MonthFromTime nm)).
    lia.
  - pose proof (getLastFridayOfMonthForDate_day (YearFromTime from)
                  (MonthFromTime from)).
    lia.
Qed.

Lemma getLastFridayOfMonth_within_61_days_witness :
  Day (getLastFridayOfMonth ex_now) <= Day ex_now + 61.
Proof.
  apply (getLastFridayOfMonth_within_61_days ex_now).
  vm_compute. discriminate.
Defined.

Lemma getLastFridayOfMonth_short_dates_witness :
  last_friday_of 2025 2 (getLastFridayOfMonth 1740744000000) = true.
Proof.
  pose proof (getLastFridayOfMonth_short_dates 1740744000000) as H.
  change (getLastFridayOfMonthForDate (getFullYear 1740744000000)
            (getMonth 1740744000000) <=? 1740744000000)
    with true in H.
  apply H; vm_compute; discriminate.
Defined.

(** ** The retry rules *)

Lemma has_known (l : list Z) code :
  ~ In code known_codes ->
  forallb (fun x => in_codes x known_codes) l = true ->
  has (list_to_set l) code = false.
Proof.
  intros Hk Hl. rewrite has_list_to_set. apply not_true_is_false.
  rewrite in_codes_In. intros Hin. apply Hk.
  rewrite forallb_forall in Hl. apply in_codes_In, Hl, Hin.
Qed.

Lemma getRetryAction_unknown code b :
  ~ In code known_codes -> getRetryAction code b = None.
Proof.
  intros Hk. unfold getRetryAction, NOT_POSSIBLE_CODES. cbv zeta.
  destruct b; cbn [retryStrategy st_instant st_scheduled_friday
    st_scheduled_friday_eom st_backoff];
    rewrite !(has_known _ _ Hk) by reflexivity; reflexivity.
Qed.

(** X7.  The rule table is total over one universe of 22 codes: in every
    bucket [getRetryAction] answers for exactly these codes, and has no
    answer for any other. *)
Theorem getRetryAction_universe code b :
  getRetryAction code b = None <-> ~ In code known_codes.
Proof.
  split.
  - intros Hnone Hk. each_code Hk; destruct b; vm_compute in Hnone;
      discriminate.
  - apply getRetryAction_unknown.
Qed.

(** X8.  In every bucket the five code sets are disjoint: a code is in at most
    one of them, so the order in which [getRetryAction] consults them
    does not matter. *)
Theorem code_sets_disjoint code b : (memberships code b <= 1)%nat.
Proof.
  destruct (in_codes code known_codes) eqn:Hk.
  - apply in_codes_In in Hk. each_code Hk; destruct b; vm_compute; lia.
  - assert (~ In code known_codes) as Hn.
    { rewrite <- in_codes_In, Hk. discriminate. }
    unfold memberships, NOT_POSSIBLE_CODES. cbv zeta.
    destruct b; cbn [retryStrategy st_instant st_scheduled_friday
      st_scheduled_friday_eom st_backoff];
      rewrite !(has_known _ _ Hn) by reflexivity; cbn; lia.
Qed.

Lemma getTimeBucket_mono d d' :
  d <= d' -> bucket_rank (getTimeBucket d) <= bucket_rank (getTimeBucket d').
Proof.
  intros Hd. unfold getTimeBucket.
  repeat match goal with
         | |- context [ ?a <=? ?b ] => destruct (Z.leb_spec a b)
         end; cbn [bucket_rank]; lia.
Qed.

(** X9.  Policies only harden with age: once the resolution of a code at a
    retry count is a backoff at some number of days overdue, it is a
    backoff at every greater number of days. *)
Theorem backoff_is_final code seq d d' :
  d <= d' ->
  resolved_action code d seq = Some backoff ->
  resolved_action code d' seq = Some backoff.
Proof.
  intros Hd Hb. pose proof (getTimeBucket_mono d d' Hd) as Hmono.
  destruct (in_codes code known_codes) eqn:Hk.
  - apply in_codes_In in Hk. unfold resolved_action in *. cbv zeta in *.
    destruct (seq >? 12);
      destruct (getTimeBucket d), (getTimeBucket d');
      cbn [bucket_rank] in Hmono; try lia;
      try exact Hb;
      each_code Hk; vm_compute in Hb |- *;
      first [reflexivity | discriminate Hb].
  - assert (~ In code known_codes) as Hn.
    { rewrite <- in_codes_In, Hk. discriminate. }
    exfalso. revert Hb. rewrite resolved_action_override.
    unfold forced_backoff_triggers.
    assert (in_codes code [441; 701; 706] = false) as Hno.
    { apply not_true_is_false. rewrite in_codes_In. intros Hin.
      apply Hn. simpl in Hin |- *. intuition lia. }
    rewrite Hno.
    assert (getRetryAction code (getTimeBucket d) = None) as ->
      by (apply getRetryAction_unknown; assumption).
    destruct (getTimeBucket d); discriminate.
Qed.

Lemma backoff_is_final_witness :
  resolved_action 601 400 3 = Some backoff.
Proof.
  apply (backoff_is_final 601 3 90 400); [lia | reflexivity].
Defined.

(** ** The retry resolver *)

(** The four ways a run of [handle_retry] can go: it stops before any
    logging, it fails after logging, it backs off, or it creates the
    successor. *)
Lemma handle_retry_cases payment w :
  (exists e, handle_retry payment w = (fail e, w)) \/
  (exists e l, handle_retry payment w = (fail e, with_log w (log w ++ l))) \/
  (exists l, handle_retry payment w
             = (success payment, with_log w (log w ++ l))) \/
  (exists code bcid bc a,
     retry_ready payment w code bcid bc /\
     resolved_action code (days_of bc) (Payment.retry_sequence_nb payment)
       = Some a /\
     retries a = true /\
     handle_retry payment w
       = (success (successor payment w code bcid (days_of bc) a),
          with_payments w
            (payments w ++ [successor payment w code bcid (days_of bc) a]))).
Proof.
  destruct (Payment.code payment) as [code|] eqn:Hc.
  2: { left. eexists. unfold handle_retry. rewrite Hc. reflexivity. }
  destruct (truthy (Payment.billing_cycle_id payment)) as [bcid|] eqn:Hb.
  2: { left. eexists. unfold handle_retry. rewrite Hc, Hb. reflexivity. }
  destruct (db_online w) eqn:Hdb.
  2: { left. eexists. unfold handle_retry. rewrite Hc, Hb.
       unfold bind, BillingCycle_fetch_by_id. rewrite Hdb. reflexivity. }
  destruct (billing_cycles w !! bcid) as [bc|] eqn:Hf.
  2: { left. eexists. unfold handle_retry. rewrite Hc, Hb.
       unfold bind, BillingCycle_fetch_by_id. rewrite Hdb, Hf.
       reflexivity. }
  assert (retry_ready payment w code bcid bc) as Hr by (split; assumption).
  destruct (resolved_action code (days_of bc)
              (Payment.retry_sequence_nb payment)) as [a|] eqn:Ha.
  2: { left. eexists. exact (handle_retry_unknown _ _ _ _ _ Hr Ha). }
  destruct (retries a) eqn:Hret.
  - right. right. right. exists code, bcid, bc, a.
    repeat split; try assumption.
    exact (handle_retry_creates _ _ _ _ _ Hr _ Ha Hret).
  - destruct a; try discriminate Hret.
    + right. right. left. eexists.
      exact (handle_retry_backoff _ _ _ _ _ Hr Ha).
    + right. left. eexists _, _.
      exact (handle_retry_not_possible _ _ _ _ _ Hr Ha).
Qed.

(** X10.  Whatever the payment and the world, a run of [handle_retry] ends in
    one of three ways: a failure that creates no row; the payment itself,
    returned with no row created; or a new row, appended after the
    existing ones and returned, which is SCHEDULED, refers to the payment
    and bears the identifier the database hands out next. *)
Theorem handle_retry_outcomes payment w :
  (exists e, fst (handle_retry payment w) = fail e /\
             payments (snd (handle_retry payment w)) = payments w) \/
  (fst (handle_retry payment w) = success payment /\
   payments (snd (handle_retry payment w)) = payments w) \/
  (exists s,
     fst (handle_retry payment w) = success s /\
     payments (snd (handle_retry payment w)) = payments w ++ [s] /\
     Payment.retry_prev_payment_id s = Some (Payment.id payment) /\
     Payment.status s = PaymentStatus.SCHEDULED /\
     Payment.id s = fresh_id w (length (payments w))).
Proof.
  destruct (handle_retry_cases payment w)
    as [(e & ->) | [(e & l & ->) | [(l & ->) |
        (code & bcid & bc & a & _ & _ & _ & ->)]]].
  - left. exists e. split; reflexivity.
  - left. exists e. split; reflexivity.
  - right. left. split; reflexivity.
  - right. right. eexists. repeat split.
Qed.

(** X11.  [handle_retry] writes to the payment table and to the log only: the
    accounts, the billing cycles, the payment methods and the alert outbox
    are as they were, and the log keeps its earlier lines. *)
Theorem handle_retry_leaves_other_stores payment w :
  accounts (snd (handle_retry payment w)) = accounts w /\
  billing_cycles (snd (handle_retry payment w)) = billing_cycles w /\
  payment_methods (snd (handle_retry payment w)) = payment_methods w /\
  alerts (snd (handle_retry payment w)) = alerts w /\
  exists l, log (snd (handle_retry payment w)) = log w ++ l.
Proof.
  destruct (handle_retry_cases payment w)
    as [(e & ->) | [(e & l & ->) | [(l & ->) |
        (code & bcid & bc & a & _ & _ & _ & ->)]]];
    cbn [snd accounts billing_cycles payment_methods alerts log with_log
         with_payments]; repeat split.
  - exists []. symmetry. apply app_nil_r.
  - exists l. reflexivity.
  - exists l. reflexivity.
  - exists []. symmetry. apply app_nil_r.
Qed.

(** X12.  Without a failure code, without a billing cycle identifier (absent or
    empty), or when the billing cycle cannot be fetched (database call
    failing, or no such cycle), [handle_retry] fails with the error of
    that case and leaves the world exactly as it was. *)
Theorem handle_retry_missing_context payment w :
  (Payment.code payment = None ->
   handle_retry payment w
   = (fail (ServerInternalError "Payment has no failure code"), w)) /\
  (forall code,
     Payment.code payment = Some code ->
     truthy (Payment.billing_cycle_id payment) = None ->
     handle_retry payment w
     = (fail (ServerInternalError "Payment has no billing cycle"), w)) /\
  (forall code bcid,
     Payment.code payment = Some code ->
     truthy (Payment.billing_cycle_id payment) = Some bcid ->
     db_online w = false \/ billing_cycles w !! bcid = None ->
     handle_retry payment w
     = (fail (ServerInternalError "Could not fetch billing cycle"), w)).
Proof.
  split; [|split].
  - intros Hc. unfold handle_retry. rewrite Hc. reflexivity.
  - intros code Hc Hb. unfold handle_retry. rewrite Hc, Hb. reflexivity.
  - intros code bcid Hc Hb Hno. unfold handle_retry. rewrite Hc, Hb.
    unfold bind, BillingCycle_fetch_by_id.
    destruct (db_online w); [|reflexivity].
    destruct Hno as [Hno|Hno]; [discriminate|]. rewrite Hno. reflexivity.
Qed.

(** X13.  Beyond 180 days overdue nothing is retried: whatever the code and the
    retry count, no row is created, and a code of the rule table that is
    not one of the not-possible codes gets the payment back unchanged. *)
Theorem no_retry_beyond_180_days payment w code bcid bc :
  retry_ready payment w code bcid bc ->
  180 < days_of bc ->
  payments (snd (handle_retry payment w)) = payments w /\
  (In code known_codes -> has NOT_POSSIBLE_CODES code = false ->
   fst (handle_retry payment w) = success payment).
Proof.
  intros Hr Hd.
  assert (getTimeBucket (days_of bc) = TB_181D_plus) as Hb.
  { unfold getTimeBucket.
    repeat match goal with
           | |- context [ ?a <=? ?b ] => destruct (Z.leb_spec a b); try lia
           end. reflexivity. }
  assert (resolved_action code (days_of bc)
            (Payment.retry_sequence_nb payment)
          = getRetryAction code TB_181D_plus) as Hres.
  { unfold resolved_action. rewrite Hb. reflexivity. }
  split.
  - destruct (getRetryAction code TB_181D_plus) as [a|] eqn:Ha.
    + assert (a = backoff \/ a = not_possible) as [-> | ->].
      { revert Ha. unfold getRetryAction.
        cbn [retryStrategy st_instant st_scheduled_friday
             st_scheduled_friday_eom st_backoff].
        rewrite !(has_list_to_set []). cbn [in_codes existsb].
        repeat match goal with
               | |- context [ has ?s code ] => destruct (has s code)
               end; intros [= <-]; auto. }
      * rewrite (handle_retry_backoff _ _ _ _ _ Hr Hres). reflexivity.
      * rewrite (handle_retry_not_possible _ _ _ _ _ Hr Hres). reflexivity.
    + rewrite (handle_retry_unknown _ _ _ _ _ Hr Hres). reflexivity.
  - intros Hk Hnp.
    assert (getRetryAction code TB_181D_plus = Some backoff) as Ha.
    { each_code Hk; first [reflexivity | discriminate Hnp]. }
    rewrite Ha in Hres.
    rewrite (handle_retry_backoff _ _ _ _ _ Hr Hres). reflexivity.
Qed.

Lemma no_retry_beyond_180_days_witness :
  payments (snd (handle_retry (ex_payment 904 0) (ex_world 904 0 181)))
    = [ex_payment 904 0] /\
  fst (handle_retry (ex_payment 904 0) (ex_world 904 0 181))
    = success (ex_payment 904 0).
Proof.
  destruct (no_retry_beyond_180_days (ex_payment 904 0)
              (ex_world 904 0 181) 904 "bc_1" (ex_cycle 181)
              (ex_ready 904 0 181)) as (H1 & H2).
  { reflexivity. }
  split; [exact H1 | apply H2; [simpl; tauto | reflexivity]].
Defined.

(** X14.  The successor stands for the same obligation as the payment it
    retries: same account, amount, type, billing cycle, subscription and
    payment method; it has no failure code of its own, and its trace data
    records the code and the bucket the decision was taken on. *)
Theorem successor_carries_obligation payment w code bcid bc a :
  retry_ready payment w code bcid bc ->
  resolved_action code (days_of bc) (Payment.retry_sequence_nb payment)
    = Some a ->
  retries a = true ->
  exists s,
    fst (handle_retry payment w) = success s /\
    Payment.account_id s = Payment.account_id payment /\
    Payment.amount s = Payment.amount payment /\
    Payment.type s = Payment.type payment /\
    Payment.billing_cycle_id s = Some bcid /\
    Payment.subscription_id s = truthy (Payment.subscription_id payment) /\
    Payment.payment_method_id s
      = truthy (Payment.payment_method_id payment) /\
    Payment.code s = None /\
    (original_code <$> Payment.retry_trace_data s) = Some (Some code) /\
    (time_bucket <$> Payment.retry_trace_data s)
      = Some (getTimeBucket (days_of bc)) /\
    (trace_days_overdue <$> Payment.retry_trace_data s)
      = Some (days_of bc).
Proof.
  intros Hr Ha Hret. destruct Hr as [Hc Hb Hdb Hf].
  exists (successor payment w code bcid (days_of bc) a).
  rewrite (handle_retry_creates _ _ _ _ _
             (Build_retry_ready _ _ _ _ _ Hc Hb Hdb Hf) _ Ha Hret).
  unfold successor, Payment_of_input, retry_input.
  cbn [fst Payment.account_id Payment.amount Payment.type
       Payment.billing_cycle_id Payment.subscription_id
       Payment.payment_method_id Payment.code Payment.retry_trace_data
       in_account in_amount in_type in_billing_cycle in_subscription
       in_payment_method in_retry_trace_data].
  rewrite Hc. repeat split.
Qed.

Lemma successor_carries_obligation_witness :
  exists s,
    fst (handle_retry (ex_payment 441 2) (ex_world 441 2 100)) = success s /\
    Payment.account_id s = "acc_1" /\ Payment.amount s = 4900.
Proof.
  destruct (successor_carries_obligation (ex_payment 441 2)
              (ex_world 441 2 100) 441 "bc_1" (ex_cycle 100)
              scheduled_friday_eom (ex_ready 441 2 100) eq_refl eq_refl)
    as (s & H1 & H2 & H3 & _).
  exists s. split; [exact H1 | split; [exact H2 | exact H3]].
Defined.

(** X15.  The routing context of a successor is that of the payment it retries
    with the Stripe exclusion appended exactly when the exclusion override
    applies (bucket 31-60D, one of its five codes, more than 8 retries);
    in every other case it is handed on unchanged, so an exclusion once
    set is never dropped. *)
Theorem routing_context_handed_on payment w code bcid bc a :
  retry_ready payment w code bcid bc ->
  resolved_action code (days_of bc) (Payment.retry_sequence_nb payment)
    = Some a ->
  retries a = true ->
  exists s,
    fst (handle_retry payment w) = success s /\
    Payment.retry_routing_ctx s
    = if exclusion_triggers (getTimeBucket (days_of bc)) code
           (Payment.retry_sequence_nb payment)
      then Payment.retry_routing_ctx payment ++ ["exclude_stripe"]
      else Payment.retry_routing_ctx payment.
Proof.
  intros Hr Ha Hret.
  exists (successor payment w code bcid (days_of bc) a).
  rewrite (handle_retry_creates _ _ _ _ _ Hr _ Ha Hret).
  split; [reflexivity|].
  rewrite <- retry_routing_override. reflexivity.
Qed.

Lemma routing_context_handed_on_witness :
  exists s,
    fst (handle_retry (ex_payment 904 20) (ex_world 904 20 70)) = success s /\
    Payment.retry_routing_ctx s = [].
Proof.
  apply (routing_context_handed_on (ex_payment 904 20)
           (ex_world 904 20 70) 904 "bc_1" (ex_cycle 70) instant
           (ex_ready 904 20 70) eq_refl eq_refl).
Defined.

Lemma handle_retry_creates_twice_witness :
  exists s1 s2,
    payments (snd (handle_retry (ex_payment 701 1)
                     (snd (handle_retry (ex_payment 701 1)
                             (ex_world 701 1 5)))))
      = payments (ex_world 701 1 5) ++ [s1; s2] /\
    is_successor_of (ex_payment 701 1) s1 = true /\
    is_successor_of (ex_payment 701 1) s2 = true.
Proof.
  apply (handle_retry_creates_twice (ex_payment 701 1) (ex_world 701 1 5)
           701 "bc_1" (ex_cycle 5) scheduled_friday
           (ex_ready 701 1 5) eq_refl eq_refl).
Defined.

(** ** The payment table *)

Lemma row_index_found id ps :
  (exists row, In row ps /\ Payment.id row = id) ->
  exists i row,
    row_index id ps = Some i /\ ps !! i = Some row /\ Payment.id row = id /\
    forall j row', (j < i)%nat -> ps !! j = Some row' ->
                   Payment.id row' <> id.
Proof.
  induction ps as [|p ps IH]; intros (row & Hin & Hid).
  - destruct Hin.
  - cbn [row_index]. destruct (String.eqb_spec (Payment.id p) id) as [E|E].
    + exists O, p. repeat split; try assumption. intros j row' Hj. lia.
    + destruct IH as (i & r & Hi & Hl & Hr & Hfirst).
      { destruct Hin as [->|Hin]; [contradiction|]. exists row. auto. }
      exists (S i), r. rewrite Hi. repeat split; try assumption.
      intros [|j] row' Hj Hl'.
      * cbn in Hl'. injection Hl' as <-. assumption.
      * cbn in Hl'. apply (Hfirst j row'); [lia | assumption].
Qed.

Lemma row_index_missing id ps :
  (forall row, In row ps -> Payment.id row <> id) -> row_index id ps = None.
Proof.
  induction ps as [|p ps IH]; intros Hno; [reflexivity|].
  cbn [row_index]. destruct (String.eqb_spec (Payment.id p) id) as [E|E].
  - exfalso. apply (Hno p); [left; reflexivity | assumption].
  - rewrite IH; [reflexivity|]. intros row Hin. apply Hno. right. assumption.
Qed.

(** X18.  When the database call fails, or no row bears the identifier,
    [Payment.update] fails with a database error and changes nothing. *)
Theorem Payment_update_missing id input w :
  db_online w = false \/
  (forall row, In row (payments w) -> Payment.id row <> id) ->
  Payment_update id input w
  = (fail (DatabaseError "Failed to update payment"), w).
Proof.
  intros Hno. unfold Payment_update.
  destruct (db_online w); [|reflexivity].
  destruct Hno as [Hno|Hno]; [discriminate|].
  rewrite (row_index_missing _ _ Hno). reflexivity.
Qed.

Lemma Payment_update_missing_witness :
  Payment_update "pay_9"
    {| up_status := None; up_code := None; up_fail_reason := None |}
    (ex_world 904 0 10)
  = (fail (DatabaseError "Failed to update payment"), ex_world 904 0 10).
Proof.
  apply (Payment_update_missing "pay_9").
  right. intros row [<-|[]]. discriminate.
Defined.

(** ** The failure handler *)

Ltac world_fields :=
  cbn [fst snd payments payment_methods accounts billing_cycles db_online
       fresh_id now log alerts with_payments with_payment_methods
       with_accounts with_billing_cycles with_log].

Section FailureHandlerRuns.

Variable is_hard_decline_code : Z -> bool.
Variable get_fail_reason_from_code : Z -> string.

Local Abbreviation handle_failed :=
  (handle_failed_pull_funds is_hard_decline_code get_fail_reason_from_code).

(** A run of the failure handler on a payment that is not yet FAILED and
    whose row the table holds, with the database online. *)
Lemma handle_failed_run payment code ref w i row :
  db_online w = true ->
  Payment.status payment <> PaymentStatus.FAILED ->
  row_index (Payment.id payment) (payments w) = Some i ->
  payments w !! i = Some row ->
  let failed :=
    apply_update (failed_input code (get_fail_reason_from_code code)) row in
  exists w',
    handle_failed payment code (Some ref) w = (success failed, w') /\
    payments w' = <[i := failed]> (payments w) /\
    payment_methods w'
      = methods_after (is_hard_decline_code code) failed code w /\
    accounts w' = accounts_after failed w /\
    billing_cycles w' = cycles_after failed ref w /\
    db_online w' = true /\ now w' = now w /\ fresh_id w' = fresh_id w /\
    alerts w' = alerts w.
Proof.
  intros Hdb Hst Hi Hl failed.
  unfold handle_failed_pull_funds.
  unfold bind at 1. unfold ret at 1.
  unfold bind at 1. unfold logger at 1.
  assert (forall (k : M (Result Payment.t)) k',
            match Payment.status payment with
            | PaymentStatus.FAILED => k'
            | _ => k
            end = k) as Hskip.
  { intros k k'. destruct (Payment.status payment); try reflexivity.
    contradiction. }
  rewrite Hskip. clear Hskip.
  unfold bind at 1. unfold Payment_update at 1. world_fields.
  rewrite Hdb, Hi, Hl.
  fold (failed_input code (get_fail_reason_from_code code)). fold failed.
  unfold methods_after, accounts_after, cycles_after.
  unfold bind, ret, logger, new_Date, PaymentMethod_update,
    CustomerAccount_fetch_by_id, CustomerAccount_update,
    BillingCycle_fetch_by_id, BillingCycle_update.
  destruct (truthy (Payment.payment_method_id failed)) as [m|];
    [destruct (is_hard_decline_code code);
     [world_fields; rewrite ?Hdb;
      destruct (payment_methods w !! m) |] |];
    world_fields; rewrite ?Hdb;
    (destruct (accounts w !! Payment.account_id failed) as [a|];
     [world_fields; rewrite ?Hdb;
      destruct (accounts w !! CustomerAccount.id a) |]);
    world_fields; rewrite ?Hdb;
    (destruct (truthy (Payment.billing_cycle_id failed)) as [b|];
     [world_fields; rewrite ?Hdb;
      destruct (billing_cycles w !! b) as [bc|];
      [world_fields; rewrite ?Hdb;
       destruct (billing_cycles w !! BillingCycle.id bc) |] |]);
    world_fields; rewrite ?Hdb;
    eexists; (split; [reflexivity|]); world_fields; repeat split;
    exact Hdb.
Qed.

Lemma handle_failed_default_ref payment code w :
  handle_failed payment code None w
  = handle_failed payment code (Some (now w)) w.
Proof. unfold handle_failed_pull_funds. reflexivity. Qed.

(** X20.  On a payment that is not yet FAILED and whose row is in the table,
    with the database online, the failure handler returns the stored row
    marked FAILED with the code and its reason, puts that row back in its
    place, and leaves every other row as it is. *)
Theorem handle_failed_marks_row payment code ref w :
  db_online w = true ->
  Payment.status payment <> PaymentStatus.FAILED ->
  (exists row, In row (payments w) /\ Payment.id row = Payment.id payment) ->
  exists i row failed,
    payments w !! i = Some row /\
    fst (handle_failed_pull_funds is_hard_decline_code
           get_fail_reason_from_code payment code (Some ref) w)
      = success failed /\
    payments (snd (handle_failed_pull_funds is_hard_decline_code
                     get_fail_reason_from_code payment code (Some ref) w))
      = <[i := failed]> (payments w) /\
    Payment.id failed = Payment.id payment /\
    Payment.status failed = PaymentStatus.FAILED /\
    Payment.code failed = Some code /\
    Payment.fail_reason failed = Some (get_fail_reason_from_code code) /\
    Payment.retry_sequence_nb failed = Payment.retry_sequence_nb row /\
    Payment.amount failed = Payment.amount row.
Proof.
  intros Hdb Hst Hex.
  destruct (row_index_found _ _ Hex) as (i & row & Hi & Hl & Hid & _).
  destruct (handle_failed_run payment code ref w i row Hdb Hst Hi Hl)
    as (w' & Hrun & Hp & _).
  eexists i, row, _. rewrite Hrun. world_fields.
  split; [exact Hl|]. split; [reflexivity|]. split; [exact Hp|].
  repeat split. exact Hid.
Qed.

(** X21.  When the row cannot be updated (database call failing, or no row
    with the identifier of the payment), the failure handler gives up
    with an internal error before any other step: no table is written,
    two lines are logged. *)
Theorem handle_failed_update_fails payment code ref w :
  Payment.status payment <> PaymentStatus.FAILED ->
  db_online w = false \/
  (forall row, In row (payments w) ->
               Payment.id row <> Payment.id payment) ->
  handle_failed payment code (Some ref) w
  = (fail (ServerInternalError "Failed to update payment"),
     with_log w
       (log w ++ [log_entry "handle_failed_pull_funds" info
                    "Handling Failed PULL funds";
                  log_entry "handle_failed_pull_funds" error
                    "Failed to update payment status to FAILED"])).
Proof.
  intros Hst Hno.
  assert (forall w0, db_online w0 = db_online w ->
                     payments w0 = payments w ->
                     Payment_update (Payment.id payment)
                       (failed_input code (get_fail_reason_from_code code))
                       w0
                     = (fail (DatabaseError "Failed to update payment"), w0))
    as Hup.
  { intros w0 Hd Hp. unfold Payment_update. rewrite Hd, Hp.
    destruct (db_online w); [|reflexivity].
    destruct Hno as [Hno|Hno]; [discriminate|].
    rewrite (row_index_missing _ _ Hno). reflexivity. }
  unfold handle_failed_pull_funds.
  unfold bind at 1. unfold ret at 1.
  unfold bind at 1. unfold logger at 1.
  assert (forall (k : M (Result Payment.t)) k',
            match Payment.status payment with
            | PaymentStatus.FAILED => k'
            | _ => k
            end = k) as Hskip.
  { intros k k'. destruct (Payment.status payment); try reflexivity.
    contradiction. }
  rewrite Hskip. clear Hskip.
  unfold bind at 1.
  fold (failed_input code (get_fail_reason_from_code code)).
  rewrite Hup by reflexivity.
  unfold bind, logger, ret. world_fields. unfold log_entry.
  rewrite <- app_assoc. reflexivity.
Qed.

(** X22.  The days overdue it stores for the billing cycle of the payment are
    the whole days from the end of the cycle to the reference date,
    clamped at zero; the number stored before plays no part, and the
    other cycles are untouched. *)
Theorem handle_failed_stores_days_overdue payment code ref w row b bc :
  db_online w = true ->
  Payment.status payment <> PaymentStatus.FAILED ->
  In row (payments w) ->
  Payment.id row = Payment.id payment ->
  (forall row', In row' (payments w) ->
                Payment.id row' = Payment.id payment -> row' = row) ->
  truthy (Payment.billing_cycle_id row) = Some b ->
  billing_cycles w !! b = Some bc ->
  BillingCycle.id bc = b ->
  billing_cycles (snd (handle_failed payment code (Some ref) w)) !! b
    = Some (with_days_overdue bc
              (Z.max 0 ((ref - BillingCycle.end_date bc) / msPerDay))) /\
  forall b', b' <> b ->
    billing_cycles (snd (handle_failed payment code (Some ref) w)) !! b'
    = billing_cycles w !! b'.
Proof.
  intros Hdb Hst Hin Hid Huniq Hb Hbc Hkey.
  destruct (row_index_found (Payment.id payment) (payments w))
    as (i & row' & Hi & Hl & Hid' & _).
  { exists row. split; assumption. }
  assert (row' = row) as ->.
  { apply Huniq; [|assumption].
    apply list_elem_of_In, list_elem_of_lookup. exists i. exact Hl. }
  destruct (handle_failed_run payment code ref w i row Hdb Hst Hi Hl)
    as (w' & Hrun & _ & _ & _ & Hcy & _).
  rewrite Hrun. world_fields. rewrite Hcy. unfold cycles_after.
  cbn [apply_update Payment.billing_cycle_id]. rewrite Hb, Hbc, Hkey, Hbc.
  split.
  - rewrite lookup_insert_eq. reflexivity.
  - intros b' Hne. rewrite lookup_insert_ne by congruence. reflexivity.
Qed.

(** X23.  A hard decline invalidates the payment method of the row, and only
    that one; any other code leaves the payment methods alone. *)
Theorem handle_failed_hard_decline payment code ref w row :
  db_online w = true ->
  Payment.status payment <> PaymentStatus.FAILED ->
  In row (payments w) ->
  Payment.id row = Payment.id payment ->
  (forall row', In row' (payments w) ->
                Payment.id row' = Payment.id payment -> row' = row) ->
  (is_hard_decline_code code = false ->
   payment_methods (snd (handle_failed payment code (Some ref) w))
   = payment_methods w) /\
  (is_hard_decline_code code = true ->
   forall m method,
     truthy (Payment.payment_method_id row) = Some m ->
     payment_methods w !! m = Some method ->
     payment_methods (snd (handle_failed payment code (Some ref) w)) !! m
       = Some (invalidated method code) /\
     forall m', m' <> m ->
       payment_methods (snd (handle_failed payment code (Some ref) w)) !! m'
       = payment_methods w !! m').
Proof.
  intros Hdb Hst Hin Hid Huniq.
  destruct (row_index_found (Payment.id payment) (payments w))
    as (i & row' & Hi & Hl & Hid' & _).
  { exists row. split; assumption. }
  assert (row' = row) as ->.
  { apply Huniq; [|assumption].
    apply list_elem_of_In, list_elem_of_lookup. exists i. exact Hl. }
  destruct (handle_failed_run payment code ref w i row Hdb Hst Hi Hl)
    as (w' & Hrun & _ & Hpm & _).
  rewrite Hrun. world_fields. rewrite Hpm. unfold methods_after.
  cbn [apply_update Payment.payment_method_id].
  split.
  - intros ->. destruct (truthy (Payment.payment_method_id row));
      reflexivity.
  - intros -> m method Hm Hlook. rewrite Hm, Hlook. split.
    + rewrite lookup_insert_eq. reflexivity.
    + intros m' Hne. rewrite lookup_insert_ne by congruence. reflexivity.
Qed.

(** X24.  The account of the row records the failure: the amount of the payment
    and the clock reading, its balance due date kept. *)
Theorem handle_failed_records_on_account payment code ref w row account :
  db_online w = true ->
  Payment.status payment <> PaymentStatus.FAILED ->
  In row (payments w) ->
  Payment.id row = Payment.id payment ->
  (forall row', In row' (payments w) ->
                Payment.id row' = Payment.id payment -> row' = row) ->
  accounts w !! Payment.account_id row = Some account ->
  CustomerAccount.id account = Payment.account_id row ->
  accounts (snd (handle_failed payment code (Some ref) w))
    !! Payment.account_id row
  = Some (with_last_failure account (Payment.amount row) (now w)).
Proof.
  intros Hdb Hst Hin Hid Huniq Hacc Hkey.
  destruct (row_index_found (Payment.id payment) (payments w))
    as (i & row' & Hi & Hl & Hid' & _).
  { exists row. split; assumption. }
  assert (row' = row) as ->.
  { apply Huniq; [|assumption].
    apply list_elem_of_In, list_elem_of_lookup. exists i. exact Hl. }
  destruct (handle_failed_run payment code ref w i row Hdb Hst Hi Hl)
    as (w' & Hrun & _ & _ & Hac & _).
  rewrite Hrun. world_fields. rewrite Hac. unfold accounts_after.
  cbn [apply_update Payment.account_id Payment.amount].
  rewrite Hacc, Hkey, Hacc. rewrite lookup_insert_eq. reflexivity.
Qed.

(** X25.  Handling the same failure twice: the payment the first run returns is
    FAILED, so a second run on it returns it again and writes to the log
    only. *)
Theorem handle_failed_twice payment code ref w code' ref' :
  db_online w = true ->
  Payment.status payment <> PaymentStatus.FAILED ->
  (exists row, In row (payments w) /\ Payment.id row = Payment.id payment) ->
  exists failed l,
    fst (handle_failed payment code (Some ref) w) = success failed /\
    handle_failed failed code' ref'
      (snd (handle_failed payment code (Some ref) w))
    = (success failed,
       with_log (snd (handle_failed payment code (Some ref) w)) l).
Proof.
  intros Hdb Hst Hex.
  destruct (row_index_found _ _ Hex) as (i & row & Hi & Hl & _).
  destruct (handle_failed_run payment code ref w i row Hdb Hst Hi Hl)
    as (w' & Hrun & _).
  rewrite Hrun. cbn [fst snd].
  destruct (handle_failed_already_failed is_hard_decline_code
              get_fail_reason_from_code
              (apply_update
                 (failed_input code (get_fail_reason_from_code code)) row)
              code' ref' w' eq_refl) as (l & Hagain).
  eexists _, l. split; [reflexivity | exact Hagain].
Qed.

End FailureHandlerRuns.

Lemma handle_failed_marks_row_witness :
  exists failed,
    fst (handle_failed_pull_funds (fun _ => true) (fun _ => "Card expired")
           (ex_due 0) 605 (Some ex_now) (ex_due_world 0))
    = success failed /\
    Payment.status failed = PaymentStatus.FAILED /\
    Payment.code failed = Some 605.
Proof.
  destruct (handle_failed_marks_row (fun _ => true)
              (fun _ => "Card expired") (ex_due 0) 605 ex_now
              (ex_due_world 0) eq_refl)
    as (i & row & failed & _ & Hrun & _ & _ & Hs & Hc & _).
  { discriminate. }
  { exists (ex_due 0). split; [left|]; reflexivity. }
  exists failed. split; [exact Hrun | split; [exact Hs | exact Hc]].
Defined.

Lemma ex_due_unique seq row :
  In row (payments (ex_due_world seq)) ->
  Payment.id row = Payment.id (ex_due seq) -> row = ex_due seq.
Proof. intros [<-|[]] _. reflexivity. Defined.

Lemma handle_failed_update_fails_witness :
  fst (handle_failed_pull_funds (fun _ => true) (fun _ => "Card expired")
         (ex_due 0) 605 (Some ex_now) (ex_offline_world 0))
  = fail (ServerInternalError "Failed to update payment") /\
  payments (snd (handle_failed_pull_funds (fun _ => true)
                   (fun _ => "Card expired") (ex_due 0) 605 (Some ex_now)
                   (ex_offline_world 0)))
  = [ex_due 0].
Proof.
  rewrite (handle_failed_update_fails (fun _ => true)
             (fun _ => "Card expired") (ex_due 0) 605 ex_now
             (ex_offline_world 0)).
  - split; reflexivity.
  - discriminate.
  - left. reflexivity.
Defined.

Lemma handle_failed_stores_days_overdue_witness :
  billing_cycles
    (snd (handle_failed_pull_funds (fun _ => true) (fun _ => "Card expired")
            (ex_due 0) 605 (Some ex_now) (ex_due_world 0))) !! "bc_1"
  = Some (with_days_overdue (ex_cycle 0) 30).
Proof.
  destruct (handle_failed_stores_days_overdue (fun _ => true)
              (fun _ => "Card expired") (ex_due 0) 605 ex_now
              (ex_due_world 0) (ex_due 0) "bc_1" (ex_cycle 0) eq_refl)
    as [H _].
  - discriminate.
  - left. reflexivity.
  - reflexivity.
  - apply ex_due_unique.
  - reflexivity.
  - reflexivity.
  - reflexivity.
  - exact H.
Defined.

Lemma handle_failed_hard_decline_witness :
  payment_methods
    (snd (handle_failed_pull_funds (fun _ => true) (fun _ => "Card expired")
            (ex_due 0) 605 (Some ex_now) (ex_due_world 0))) !! "pm_1"
  = Some (invalidated ex_method 605).
Proof.
  destruct (handle_failed_hard_decline (fun _ => true)
              (fun _ => "Card expired") (ex_due 0) 605 ex_now
              (ex_due_world 0) (ex_due 0) eq_refl) as [_ H].
  - discriminate.
  - left. reflexivity.
  - reflexivity.
  - apply ex_due_unique.
  - apply (H eq_refl "pm_1" ex_method); reflexivity.
Defined.

Lemma handle_failed_records_on_account_witness :
  accounts
    (snd (handle_failed_pull_funds (fun _ => true) (fun _ => "Card expired")
            (ex_due 0) 605 (Some ex_now) (ex_due_world 0))) !! "acc_1"
  = Some (with_last_failure ex_account 4900 ex_now).
Proof.
  apply (handle_failed_records_on_account (fun _ => true)
           (fun _ => "Card expired") (ex_due 0) 605 ex_now
           (ex_due_world 0) (ex_due 0) ex_account).
  - reflexivity.
  - discriminate.
  - left. reflexivity.
  - reflexivity.
  - apply ex_due_unique.
  - reflexivity.
  - reflexivity.
Defined.

Lemma handle_failed_twice_witness :
  exists failed l,
    fst (handle_failed_pull_funds (fun _ => false) (fun _ => "NSF")
           (ex_due 0) 701 (Some ex_now) (ex_due_world 0)) = success failed /\
    handle_failed_pull_funds (fun _ => false) (fun _ => "NSF") failed 701
      None
      (snd (handle_failed_pull_funds (fun _ => false) (fun _ => "NSF")
              (ex_due 0) 701 (Some ex_now) (ex_due_world 0)))
    = (success failed,
       with_log
         (snd (handle_failed_pull_funds (fun _ => false) (fun _ => "NSF")
                 (ex_due 0) 701 (Some ex_now) (ex_due_world 0))) l).
Proof.
  apply (handle_failed_twice (fun _ => false) (fun _ => "NSF") (ex_due 0)
           701 ex_now (ex_due_world 0) 701 None).
  - reflexivity.
  - discriminate.
  - exists (ex_due 0). split; [left|]; reflexivity.
Defined.

(** ** What the failure handler never does *)

Lemma establishes_seq {A B} (R : World -> World -> Prop) (c : M A)
    (k : A -> M B) :
  (forall w1 w2 w3, R w1 w2 -> R w2 w3 -> R w1 w3) ->
  establishes R c -> (forall a, establishes R (k a)) ->
  establishes R (bind c k).
Proof.
  intros Htrans Hc Hk w. unfold bind. specialize (Hc w).
  destruct (c w) as [a w1]. cbn [snd] in Hc.
  exact (Htrans _ _ _ Hc (Hk a w1)).
Qed.

Lemma rows_kept_trans w1 w2 w3 :
  rows_kept w1 w2 -> rows_kept w2 w3 -> rows_kept w1 w3.
Proof. intros [H1 H2] [H3 H4]. split; congruence. Qed.

(** An operation that leaves the payment table and the alerts alone. *)
Ltac rows_untouched :=
  let w := fresh "w" in
  intros w;
  repeat match goal with
         | |- context [ match ?x with _ => _ end ] => destruct x
         | |- context [ if ?x then _ else _ ] => destruct x
         end; split; reflexivity.

Lemma rows_kept_Payment_update id input :
  establishes rows_kept (Payment_update id input).
Proof.
  intros w. unfold Payment_update.
  destruct (db_online w); [|split; reflexivity].
  destruct (row_index id (payments w)) as [i|]; [|split; reflexivity].
  destruct (payments w !! i) as [row|] eqn:Hl; [|split; reflexivity].
  split; [|reflexivity]. cbn [snd payments with_payments].
  rewrite list_fmap_insert. apply list_insert_id.
  rewrite list_lookup_fmap, Hl. reflexivity.
Qed.

Section FailureHandlerFrame.

Variable is_hard_decline_code : Z -> bool.
Variable get_fail_reason_from_code : Z -> string.

(** X26.  Whatever the payment, the code, the reference date and the state of
    the database, the failure handler adds no payment row, removes none,
    changes no identifier, and sends no alert. *)
Theorem handle_failed_keeps_rows payment code ref_date :
  establishes rows_kept
    (handle_failed_pull_funds is_hard_decline_code
       get_fail_reason_from_code payment code ref_date).
Proof.
  unfold handle_failed_pull_funds.
  repeat first
    [ apply rows_kept_Payment_update
    | apply (establishes_seq rows_kept);
        [exact rows_kept_trans | | intros ?]
    | match goal with
      | |- establishes _ (match ?x with _ => _ end) => destruct x
      | |- establishes _ (if ?x then _ else _) => destruct x
      end
    | unfold ret, logger, new_Date, PaymentMethod_update,
        CustomerAccount_fetch_by_id, CustomerAccount_update,
        BillingCycle_fetch_by_id, BillingCycle_update; rows_untouched ].
Qed.

End FailureHandlerFrame.

(** ** The failure branch of [pull_funds] *)

Section FailureBranch.

Variable is_hard_decline_code : Z -> bool.
Variable get_fail_reason_from_code : Z -> string.

Local Abbreviation handle_failed :=
  (handle_failed_pull_funds is_hard_decline_code get_fail_reason_from_code).
Local Abbreviation failure_branch :=
  (pull_funds_failed is_hard_decline_code get_fail_reason_from_code).

(** The state in which the retry resolver finds a payment that the
    failure handler has just marked: the row is ready, and its billing
    cycle carries the days overdue computed from the reference date. *)
Lemma retry_ready_after_failure payment code ref w i row b bc w' :
  db_online w = true ->
  row_index (Payment.id payment) (payments w) = Some i ->
  payments w !! i = Some row ->
  truthy (Payment.billing_cycle_id row) = Some b ->
  billing_cycles w !! b = Some bc ->
  BillingCycle.id bc = b ->
  billing_cycles w'
    = cycles_after
        (apply_update (failed_input code (get_fail_reason_from_code code))
           row) ref w ->
  db_online w' = true ->
  retry_ready
    (apply_update (failed_input code (get_fail_reason_from_code code)) row)
    w' code b (with_days_overdue bc (days_overdue_at ref bc)).
Proof.
  intros Hdb Hi Hl Hb Hbc Hkey Hcy Hdb'. split.
  - reflexivity.
  - exact Hb.
  - exact Hdb'.
  - rewrite Hcy. unfold cycles_after.
    cbn [apply_update Payment.billing_cycle_id].
    rewrite Hb, Hbc, Hkey, Hbc. apply lookup_insert_eq.
Qed.

Lemma failure_branch_run payment code ref w failed w1 :
  handle_failed payment code (Some ref) w = (success failed, w1) ->
  failure_branch payment code (Some ref) w
  = (success (match fst (handle_retry failed w1) with
              | success s => s
              | fail _ => failed
              end),
     snd (handle_retry failed w1)).
Proof.
  intros Hrun. unfold pull_funds_failed.
  unfold bind at 1. unfold ret at 1. unfold bind at 1. rewrite Hrun.
  cbn [safe_unwrap from_option id]. unfold bind, ret.
  destruct (handle_retry failed w1) as [[s|e] w2]; reflexivity.
Qed.

(** X28.  A payment that fails for the first time with a code that is retried:
    the failure branch marks its row FAILED, then creates the successor
    and returns it.  The bucket of the decision comes from the reference
    date and the end of the billing cycle (whole days, clamped at zero),
    not from the days overdue stored before; the retry count comes from
    the stored row. *)
Theorem failure_branch_retries payment code ref w row b bc a :
  db_online w = true ->
  Payment.status payment <> PaymentStatus.FAILED ->
  In row (payments w) ->
  Payment.id row = Payment.id payment ->
  (forall row', In row' (payments w) ->
                Payment.id row' = Payment.id payment -> row' = row) ->
  truthy (Payment.billing_cycle_id row) = Some b ->
  billing_cycles w !! b = Some bc ->
  BillingCycle.id bc = b ->
  resolved_action code (days_overdue_at ref bc)
    (Payment.retry_sequence_nb row) = Some a ->
  retries a = true ->
  exists s i failed,
    fst (failure_branch payment code (Some ref) w) = success s /\
    payments (snd (failure_branch payment code (Some ref) w))
      = <[i := failed]> (payments w) ++ [s] /\
    payments w !! i = Some row /\
    Payment.status failed = PaymentStatus.FAILED /\
    Payment.code failed = Some code /\
    Payment.retry_prev_payment_id s = Some (Payment.id payment) /\
    Payment.retry_sequence_nb s = Payment.retry_sequence_nb row + 1 /\
    Payment.status s = PaymentStatus.SCHEDULED /\
    (trace_days_overdue <$> Payment.retry_trace_data s)
      = Some (days_overdue_at ref bc).
Proof.
  intros Hdb Hst Hin Hid Huniq Hb Hbc Hkey Ha Hret.
  destruct (row_index_found (Payment.id payment) (payments w))
    as (i & row' & Hi & Hl & Hid' & _).
  { exists row. split; assumption. }
  assert (row' = row) as ->.
  { apply Huniq; [|assumption].
    apply list_elem_of_In, list_elem_of_lookup. exists i. exact Hl. }
  destruct (handle_failed_run is_hard_decline_code
              get_fail_reason_from_code payment code ref w i row
              Hdb Hst Hi Hl)
    as (w1 & Hrun & Hp & _ & _ & Hcy & Hdb1 & _).
  pose proof (retry_ready_after_failure payment code ref w i row b bc w1
                Hdb Hi Hl Hb Hbc Hkey Hcy Hdb1) as Hready.
  rewrite (failure_branch_run _ _ _ _ _ _ Hrun).
  rewrite (handle_retry_creates _ _ _ _ _ Hready _ Ha Hret).
  eexists _, i, _. cbn [fst snd payments with_payments]. rewrite Hp.
  split; [reflexivity|]. split; [reflexivity|]. split; [exact Hl|].
  repeat split. cbn. rewrite Hid. reflexivity.
Qed.

(** X29.  A payment that fails for the first time with a not-possible code:
    the resolver's error does not reach the caller.  The failure branch
    reports success and returns the row marked FAILED; no successor is
    created. *)
Theorem failure_branch_hides_not_possible payment code ref w row b bc :
  db_online w = true ->
  Payment.status payment <> PaymentStatus.FAILED ->
  In row (payments w) ->
  Payment.id row = Payment.id payment ->
  (forall row', In row' (payments w) ->
                Payment.id row' = Payment.id payment -> row' = row) ->
  truthy (Payment.billing_cycle_id row) = Some b ->
  billing_cycles w !! b = Some bc ->
  BillingCycle.id bc = b ->
  has NOT_POSSIBLE_CODES code = true ->
  exists i failed,
    fst (failure_branch payment code (Some ref) w) = success failed /\
    payments (snd (failure_branch payment code (Some ref) w))
      = <[i := failed]> (payments w) /\
    Payment.status failed = PaymentStatus.FAILED /\
    Payment.code failed = Some code /\
    fst (handle_retry failed
           (snd (handle_failed payment code (Some ref) w)))
      = fail (not_possible_error code).
Proof.
  intros Hdb Hst Hin Hid Huniq Hb Hbc Hkey Hnp.
  destruct (row_index_found (Payment.id payment) (payments w))
    as (i & row' & Hi & Hl & Hid' & _).
  { exists row. split; assumption. }
  assert (row' = row) as ->.
  { apply Huniq; [|assumption].
    apply list_elem_of_In, list_elem_of_lookup. exists i. exact Hl. }
  destruct (handle_failed_run is_hard_decline_code
              get_fail_reason_from_code payment code ref w i row
              Hdb Hst Hi Hl)
    as (w1 & Hrun & Hp & _ & _ & Hcy & Hdb1 & _).
  pose proof (retry_ready_after_failure payment code ref w i row b bc w1
                Hdb Hi Hl Hb Hbc Hkey Hcy Hdb1) as Hready.
  rewrite (failure_branch_run _ _ _ _ _ _ Hrun). rewrite Hrun.
  cbn [snd].
  rewrite (handle_retry_not_possible _ _ _ _ _ Hready
             (not_possible_resolved _ _ _ Hnp)).
  eexists i, _. cbn [fst snd payments with_log]. rewrite Hp.
  repeat split.
  rewrite (handle_retry_not_possible _ _ _ _ _ Hready
             (not_possible_resolved _ _ _ Hnp)).
  reflexivity.
Qed.

End FailureBranch.

Lemma failure_branch_retries_witness :
  exists s,
    fst (pull_funds_failed (fun _ => false) (fun _ => "NSF") (ex_due 2) 701
           (Some ex_now) (ex_due_world 2)) = success s /\
    Payment.retry_sequence_nb s = 2 + 1 /\
    (trace_days_overdue <$> Payment.retry_trace_data s) = Some 30.
Proof.
  destruct (failure_branch_retries (fun _ => false) (fun _ => "NSF")
              (ex_due 2) 701 ex_now (ex_due_world 2) (ex_due 2) "bc_1"
              (ex_cycle 0) scheduled_friday eq_refl)
    as (s & i & failed & Hrun & _ & _ & _ & _ & _ & Hseq & _ & Hdays).
  - discriminate.
  - left. reflexivity.
  - reflexivity.
  - apply ex_due_unique.
  - reflexivity.
  - reflexivity.
  - reflexivity.
  - reflexivity.
  - reflexivity.
  - exists s. split; [exact Hrun | split; [exact Hseq | exact Hdays]].
Defined.

Lemma failure_branch_hides_not_possible_witness :
  exists failed,
    fst (pull_funds_failed (fun _ => false) (fun _ => "EFT NSF") (ex_due 0)
           710 (Some ex_now) (ex_due_world 0)) = success failed /\
    Payment.status failed = PaymentStatus.FAILED.
Proof.
  destruct (failure_branch_hides_not_possible (fun _ => false)
              (fun _ => "EFT NSF") (ex_due 0) 710 ex_now (ex_due_world 0)
              (ex_due 0) "bc_1" (ex_cycle 0) eq_refl)
    as (i & failed & Hrun & _ & Hs & _).
  - discriminate.
  - left. reflexivity.
  - reflexivity.
  - apply ex_due_unique.
  - reflexivity.
  - reflexivity.
  - reflexivity.
  - reflexivity.
  - exists failed. split; [exact Hrun | exact Hs].
Defined.

Lemma handle_retry_missing_context_witness :
  handle_retry (ex_due 0) (ex_due_world 0)
  = (fail (ServerInternalError "Payment has no failure code"),
     ex_due_world 0) /\
  handle_retry (ex_payment 904 0) (ex_offline_world 0)
  = (fail (ServerInternalError "Could not fetch billing cycle"),
     ex_offline_world 0).
Proof.
  destruct (handle_retry_missing_context (ex_due 0) (ex_due_world 0))
    as (Hcode & _).
  destruct (handle_retry_missing_context (ex_payment 904 0)
              (ex_offline_world 0)) as (_ & _ & Hfetch).
  split.
  - apply Hcode. reflexivity.
  - apply (Hfetch 904 "bc_1"); [reflexivity | reflexivity |].
    left. reflexivity.
Defined.
